(** * inferno.dataset: length resolution, type-dispatching indexing,
      Dataset and CVSplit

    A shallow embedding of [src/inferno/dataset.py].

    Python values are a tagged union [data]; a call that may raise returns
    [res], whose [Raise] carries the exception class (and, where the source
    raises the same class with different messages, which message).  The
    functions of the file are translated one by one and keep their names.
    What the file imports from numpy, torch, pandas, scikit-learn and
    [inferno.utils] is not part of it: those capabilities are the fields of
    the class [Ecosystem], and every general statement holds for all of its
    instances.  [Reference] is one instance, used to run the definitions on
    concrete inputs. *)

From Stdlib Require Import ZArith Floats.SpecFloat.
From stdpp Require Import base option list strings gmap.

Set Warnings "-register-all".
Local Open Scope Z_scope.

(** ** Exceptions and results *)

(** The messages of the exceptions the file itself raises, and those of the
    libraries that the model distinguishes. *)
Inductive message : Type :=
  | MsgInconsistentLengths   (* "Dataset does not have consistent lengths." *)
  | MsgXyLengths             (* "X and y have inconsistent lengths." *)
  | MsgIndexDtype            (* "arrays used as indices must be of integer (or boolean) type" *)
  | MsgCvNotPositive         (* "Numbers less than 0 are not allowed for cv ..." *)
  | MsgNotStratified         (* "Stratified CV not possible with given y." *)
  | MsgLibrary.              (* any message of a library *)

Inductive exc : Type :=
  | TypeError
  | AttributeError
  | KeyError
  | StopIteration
  | OverflowError
  | RuntimeError
  | NotImplementedError
  | ValueError (m : message)
  | IndexError (m : message).

Inductive res (A : Type) : Type :=
  | Ok (a : A)
  | Raise (e : exc).
Arguments Ok {A} a.
Arguments Raise {A} e.

#[global] Instance res_ret : MRet res := fun _ a => Ok a.
#[global] Instance res_bind : MBind res := fun _ _ f m =>
  match m with Ok a => f a | Raise e => Raise e end.
#[global] Instance res_fmap : FMap res := fun _ _ f m =>
  match m with Ok a => Ok (f a) | Raise e => Raise e end.

#[global] Instance message_eq_dec : EqDecision message.
Proof. solve_decision. Defined.
#[global] Instance exc_eq_dec : EqDecision exc.
Proof. solve_decision. Defined.

(** A comprehension [[f(x) for x in l]]: the elements are evaluated in
    order and the first exception ends the evaluation. *)
Section Comprehension.
Context {A B : Type} (f : A → res B).

Fixpoint comprehension (l : list A) : res (list B) :=
  match l with
  | [] => Ok []
  | x :: l' =>
      match f x with
      | Ok y =>
          match comprehension l' with
          | Ok ys => Ok (y :: ys)
          | Raise e => Raise e
          end
      | Raise e => Raise e
      end
  end.
End Comprehension.

(** [try: body except cls: handler]: only an exception of class [cls] is
    handled, any other one propagates. *)
Definition try_except {A} (body : res A) (cls : exc) (handler : res A) : res A :=
  match body with
  | Ok a => Ok a
  | Raise e => if decide (e = cls) then handler else Raise e
  end.

(** ** Python values *)

(** A pandas DataFrame: column names and rows; rows are selected by
    position. *)
Record frame : Type := Frame {
  columns : list string;
  rows : list (list Z)
}.

(** An item of a numeric array along its first dimension: a number for an
    array of one dimension, a row for an array of two. *)
Inductive item : Type :=
  | Num (z : Z)
  | Row (zs : list Z).

(** The values the file handles.  An [Array] or [Tensor] lists its items
    along the first dimension; a [List] is a Python list and a [Tuple] a
    Python tuple; a [Dict] keeps its items in insertion order, which is the
    order [dict.items()] and [dict.values()] iterate in. *)
Inductive data : Type :=
  | PyNone
  | Scalar (z : Z)
  | Array (xs : list item)
  | Tensor (xs : list item)
  | NDFrame (f : frame)
  | Dict (kvs : list (string * data))
  | List (xs : list data)
  | Tuple (xs : list data).

(** The element type of a numpy array used as an index.  [multi_indexing]
    tests [i.dtype == bool] and [i.dtype == int]; the second holds of
    numpy's default integer type only, the one Python's [int] stands for
    (int64 where that default has 64 bits).  The integer types of another
    width or signedness are [sized_int], what is neither boolean nor
    integer is [other_dtype]. *)
Inductive sized_int : Type := Int8 | Int16 | Int32 | UInt8 | UInt16 | UInt32 | UInt64.
Inductive other_dtype : Type := Float64 | Complex128 | Object | Unicode.

(** What is passed as [i]. *)
Inductive index : Type :=
  | IInt (n : Z)                          (* a Python int *)
  | ISlice (start stop : option Z)        (* slice(start, stop) *)
  | IBoolArr (mask : list bool)           (* ndarray, dtype bool *)
  | IIntArr (pos : list Z)                (* ndarray, dtype int *)
  | ISizedIntArr (dt : sized_int) (pos : list Z)   (* ndarray, another integer dtype *)
  | IOtherArr (dt : other_dtype) (size : nat)   (* ndarray, other dtype *)
  | IList (pos : list Z)                  (* a Python list of ints *)
  | ILong (pos : list Z).                 (* torch.LongTensor *)

#[global] Instance sized_int_eq_dec : EqDecision sized_int.
Proof. solve_decision. Defined.
#[global] Instance other_dtype_eq_dec : EqDecision other_dtype.
Proof. solve_decision. Defined.
#[global] Instance index_eq_dec : EqDecision index.
Proof. solve_decision. Defined.

(** ** Built-in operations *)

(** [len(x)]. *)
Definition len (d : data) : res Z :=
  match d with
  | PyNone | Scalar _ => Raise TypeError
  | Array xs | Tensor xs | List xs | Tuple xs => Ok (Z.of_nat (length xs))
  | NDFrame f => Ok (Z.of_nat (length (rows f)))
  | Dict kvs => Ok (Z.of_nat (length kvs))
  end.

(** Where a start or stop of a slice falls in a sequence of [n] items. *)
Definition slice_bound (n : Z) (default : Z) (b : option Z) : Z :=
  match b with
  | None => default
  | Some k => if k <? 0 then Z.max 0 (n + k) else Z.min n k
  end.

Definition slice_of {A} (start stop : option Z) (l : list A) : list A :=
  let n := Z.of_nat (length l) in
  let a := slice_bound n 0 start in
  let b := slice_bound n n stop in
  take (Z.to_nat (b - a)) (drop (Z.to_nat a) l).

(** The item at position [k], negative positions counting from the end. *)
Definition item_at {A} (l : list A) (k : Z) : res A :=
  let n := Z.of_nat (length l) in
  let k' := if k <? 0 then n + k else k in
  if (k' <? 0) || (n <=? k') then Raise (IndexError MsgLibrary)
  else match l !! Z.to_nat k' with
       | Some x => Ok x
       | None => Raise (IndexError MsgLibrary)
       end.

(** [l[i]] for a list, and [t[i]] for a tuple, whose slices are tuples. *)
Definition list_getitem (xs : list data) (i : index) : res data :=
  match i with
  | IInt k => item_at xs k
  | ISlice a b => Ok (List (slice_of a b xs))
  | _ => Raise TypeError
  end.

Definition tuple_getitem (xs : list data) (i : index) : res data :=
  match i with
  | IInt k => item_at xs k
  | ISlice a b => Ok (Tuple (slice_of a b xs))
  | _ => Raise TypeError
  end.

(** [d[i]] for a dict whose keys are names: no index is among the keys;
    an index that cannot be hashed is a type error. *)
Definition dict_getitem (kvs : list (string * data)) (i : index) : res data :=
  match i with
  | IInt _ | ILong _ => Raise KeyError
  | _ => Raise TypeError
  end.

(** [mask.nonzero()[0]]: the positions of the true entries, from [k] on. *)
Fixpoint nonzero_from (k : Z) (mask : list bool) : list Z :=
  match mask with
  | [] => []
  | b :: mask' =>
      if b then k :: nonzero_from (k + 1) mask' else nonzero_from (k + 1) mask'
  end.

Definition nonzero (mask : list bool) : list Z := nonzero_from 0 mask.

(** [np.arange(n)]. *)
Definition arange (n : Z) : list Z := Z.of_nat <$> seq 0 (Z.to_nat n).

(** [torch.zeros(n)]. *)
Definition torch_zeros (n : Z) : data := Tensor (replicate (Z.to_nat n) (Num 0)).

(** Induction over [data] that reaches the items of arrays, tensors, lists
    and dicts. *)
Section DataInd.
Variable P : data → Prop.
Hypothesis HNone : P PyNone.
Hypothesis HScalar : ∀ z, P (Scalar z).
Hypothesis HArray : ∀ xs, P (Array xs).
Hypothesis HTensor : ∀ xs, P (Tensor xs).
Hypothesis HFrame : ∀ f, P (NDFrame f).
Hypothesis HDict : ∀ kvs, Forall (λ kv, P kv.2) kvs → P (Dict kvs).
Hypothesis HList : ∀ xs, Forall P xs → P (List xs).
Hypothesis HTuple : ∀ xs, Forall P xs → P (Tuple xs).

Fixpoint data_ind' (d : data) : P d :=
  let all := fix all (l : list data) : Forall P l :=
    match l with
    | [] => Forall_nil_2 P
    | x :: l' => Forall_cons_2 P x l' (data_ind' x) (all l')
    end in
  match d with
  | PyNone => HNone
  | Scalar z => HScalar z
  | Array xs => HArray xs
  | Tensor xs => HTensor xs
  | NDFrame f => HFrame f
  | Dict kvs =>
      HDict kvs
        ((fix allkv (l : list (string * data)) : Forall (λ kv, P kv.2) l :=
            match l with
            | [] => Forall_nil_2 _
            | kv :: l' => Forall_cons_2 (λ kv, P kv.2) kv l' (data_ind' kv.2) (allkv l')
            end) kvs)
  | List xs => HList xs (all xs)
  | Tuple xs => HTuple xs (all xs)
  end.
End DataInd.

(** ** Length resolution *)

(** What [_apply_to_data] returns: the result of [func] at a leaf, a list
    for a list, a tuple or an unpacked dict, a dict otherwise. *)
Inductive applied (A : Type) : Type :=
  | Leaf (a : A)
  | Items (ts : list (applied A))
  | Named (kts : list (string * applied A)).
Arguments Leaf {A} a.
Arguments Items {A} ts.
Arguments Named {A} kts.

Section ApplyToData.
Context {A : Type} (func : data → res A) (unpack_dict : bool).

Fixpoint _apply_to_data (d : data) : res (applied A) :=
  match d with
  | Dict kvs =>
      if unpack_dict
      then Items <$> comprehension (λ kv : string * data, _apply_to_data kv.2) kvs
      else Named <$> comprehension
             (λ kv : string * data, pair kv.1 <$> _apply_to_data kv.2) kvs
  | List xs | Tuple xs =>
      try_except (Items <$> comprehension _apply_to_data xs)
        TypeError (Leaf <$> func d)
  | _ => Leaf <$> func d
  end.
End ApplyToData.

(** Modelled from the spec: [inferno.utils.flatten] is imported by the file
    and is not under src/.  Section 4.1 has it flatten the nested result
    into one flat list of per-leaf lengths; the keys of a dict are ignored. *)
Fixpoint flatten {A} (t : applied A) : list A :=
  match t with
  | Leaf a => [a]
  | Items ts => concat (map flatten ts)
  | Named kts => concat (map (λ kt : string * applied A, flatten kt.2) kts)
  end.

(** The lengths [get_len] collects before it compares them. *)
Definition collected_lens (d : data) : res (list Z) :=
  t ← _apply_to_data len true d;
  mret (flatten (Items [t])).

Definition get_len (d : data) : res Z :=
  lens ← collected_lens d;
  let len_set : gset Z := list_to_set lens in
  if decide (size len_set ≠ 1%nat)
  then Raise (ValueError MsgInconsistentLengths)
  else match elements len_set with
       | n :: _ => Ok n
       | [] => Raise (IndexError MsgLibrary)
       end.

(** ** Split generators and the capabilities the file consumes *)

(** A Python float is an IEEE 754 binary64 value. *)
Definition float : Type := spec_float.

(** A [numbers.Number]: an int or a float. *)
Inductive number : Type :=
  | NInt (n : Z)
  | NFloat (x : float).

(** The objects with a [split] method that the file meets: the four
    scikit-learn generators it names, the wrapper scikit-learn puts around
    an iterable of index pairs, and generators of any other class. *)
Inductive splitter : Type :=
  | KFold (n_splits : Z)
  | StratifiedKFold (n_splits : Z)
  | ShuffleSplit (test_size : number)
  | StratifiedShuffleSplit (test_size : number)
  | CVIterableWrapper (pairs : list (index * index))
  | OtherSplitter (name : string).

(** What may be passed as [cv]. *)
Inductive cv_arg : Type :=
  | CvNone
  | CvNumber (n : number)
  | CvSplitter (s : splitter)
  | CvIterable (pairs : list (index * index))
  | CvOther (name : string).       (* any other object, for instance a string *)

(** [sklearn.utils.multiclass.type_of_target]. *)
Inductive target_type : Type :=
  | Binary | Multiclass | Continuous | Multilabel | UnknownTarget.

(** The capabilities of section 6 of the specification.  None of them is
    defined in the file; the law says that a successful selection by
    scikit-learn returns an object, not [None]. *)
Class Ecosystem : Type := {
  (* numpy: a[i] *)
  array_getitem : list item → index → res data;
  (* torch: t[i] *)
  tensor_getitem : list item → index → res data;
  (* pandas: df[i] and df.iloc[i] *)
  frame_getitem : frame → index → res data;
  frame_iloc : frame → index → res data;
  (* sklearn.utils.safe_indexing(X, indices) *)
  safe_indexing : data → index → res data;
  (* inferno.utils.to_tensor(X, use_cuda) and inferno.utils.to_numpy(X) *)
  to_tensor : data → bool → res data;
  to_numpy : data → res data;
  (* sklearn: type_of_target(y), and what iterating over
     generator.split( *args ) yields *)
  type_of_target : data → res target_type;
  generator_split : splitter → list data → res (list (index * index));
  safe_indexing_not_none : ∀ x i r, safe_indexing x i = Ok r → r ≠ PyNone
}.

(** ** Type-dispatching indexing *)

Section Indexing.
Context `{Ecosystem}.

(** [v[i]], the subscript of the value's own type. *)
Definition getitem (v : data) (i : index) : res data :=
  match v with
  | PyNone | Scalar _ => Raise TypeError
  | Array xs => array_getitem xs i
  | Tensor xs => tensor_getitem xs i
  | NDFrame f => frame_getitem f i
  | Dict kvs => dict_getitem kvs i
  | List xs => list_getitem xs i
  | Tuple xs => tuple_getitem xs i
  end.

Definition is_ndarray (i : index) : bool :=
  match i with
  | IBoolArr _ | IIntArr _ | ISizedIntArr _ _ | IOtherArr _ _ => true
  | _ => false
  end.

(** Lines 82-89: what becomes of [i] before the container is looked at. *)
Definition normalize_index (i : index) : res index :=
  if is_ndarray i then
    (* if i.dtype == bool: i = i.nonzero()[0] *)
    let i := match i with IBoolArr mask => IIntArr (nonzero mask) | _ => i end in
    match i with
    | IIntArr pos => Ok (IList pos)            (* if i.dtype == int: i = i.tolist() *)
    | _ => Raise (IndexError MsgIndexDtype)    (* else: raise IndexError *)
    end
  else Ok i.

(** Lines 100-111: torch tensor, pandas NDFrame, then numpy array or
    list. *)
Definition index_single (d : data) (i : index) : res data :=
  match d with
  | Tensor xs =>
      tensor_getitem xs (match i with IList pos => ILong pos | _ => i end)
  | NDFrame f => frame_iloc f i
  | _ =>
      match i with
      | IInt _ | ISlice _ _ => getitem d i
      | _ => safe_indexing d i
      end
  end.

Fixpoint multi_indexing (d : data) (i : index) : res data :=
  i ← normalize_index i;
  match d with
  | Dict kvs =>
      Dict <$> comprehension (λ kv : string * data, pair kv.1 <$> getitem kv.2 i) kvs
  | List xs | Tuple xs =>
      match comprehension (λ x, multi_indexing x i) xs with
      | Ok ys => Ok (List ys)
      | Raise e => if decide (e = TypeError) then index_single d i else Raise e
      end
  | _ => index_single d i
  end.
End Indexing.

(** ** Dataset *)

(** An instance of [Dataset].  [X], [y] and [use_cuda] are set by every
    construction; the other attributes are set on one path each and live in
    the instance dictionary, where reading a name that was never set is an
    attribute error. *)
Record Dataset : Type := mkDataset {
  ds_X : data;
  ds_y : data;
  ds_use_cuda : bool;
  ds_dict : gmap string Z
}.

Definition setattr (self : Dataset) (name : string) (v : Z) : Dataset :=
  mkDataset (ds_X self) (ds_y self) (ds_use_cuda self) (<[name := v]> (ds_dict self)).

Definition getattr (self : Dataset) (name : string) : res Z :=
  match ds_dict self !! name with
  | Some v => Ok v
  | None => Raise AttributeError
  end.

Definition is_none (d : data) : bool :=
  match d with PyNone => true | _ => false end.

Definition is_pandas_ndframe (d : data) : bool :=
  match d with NDFrame _ => true | _ => false end.

(** [{k: X[k].values.reshape(-1, 1) for k in X}]: every column as an array
    with one row per sample and one number per row. *)
Definition column_arrays (f : frame) : list (string * data) :=
  imap (λ j k, (k, Array ((λ r : list Z, Row [nth j r 0]) <$> rows f)))
       (columns f).

Section DatasetMethods.
Context `{Ecosystem}.

Definition Dataset__init__ (X y : data) (use_cuda : bool) (length : option Z)
  : res Dataset :=
  let self := mkDataset X y use_cuda ∅ in
  match length with
  | Some n => Ok (setattr self "_length" n)
  | None =>
      len_X ← get_len X;
      _ ← (if is_none y then Ok ()
           else len_y ← get_len y;
                if decide (len_y ≠ len_X)
                then Raise (ValueError MsgXyLengths) else Ok ());
      Ok (setattr self "_len" len_X)
  end.

Definition Dataset__len__ (self : Dataset) : res Z := getattr self "_len".

Definition Dataset__getitem__ (self : Dataset) (i : index) : res (data * data) :=
  let X := match ds_X self with
           | NDFrame f => Dict (column_arrays f)
           | X => X
           end in
  xi ← multi_indexing X i;
  yi ← (if is_none (ds_y self)
        then n ← get_len xi; Ok (torch_zeros n)
        else multi_indexing (ds_y self) i);
  tx ← to_tensor xi (ds_use_cuda self);
  ty ← to_tensor yi (ds_use_cuda self);
  Ok (tx, ty).
End DatasetMethods.

(** ** CVSplit *)

(** What a call of [CVSplit] does to the data, in order: it draws the
    splits of a generator, and it selects a partition. *)
Inductive event : Type :=
  | ESplit (cv : splitter) (args : list data)
  | ESelect (d : data) (i : index).

(** A computation that records its events and may raise. *)
Inductive traced (A : Type) : Type :=
  | Traced (log : list event) (r : res A).
Arguments Traced {A} log r.

Definition log_of {A} (t : traced A) : list event :=
  match t with Traced log _ => log end.
Definition result_of {A} (t : traced A) : res A :=
  match t with Traced _ r => r end.

#[global] Instance traced_ret : MRet traced := fun _ a => Traced [] (Ok a).
#[global] Instance traced_bind : MBind traced := fun _ _ f m =>
  match m with
  | Traced log (Ok a) =>
      match f a with Traced log' r => Traced (log ++ log') r end
  | Traced log (Raise e) => Traced log (Raise e)
  end.

(** A step without an event, and a step that is one event. *)
Definition quiet {A} (r : res A) : traced A := Traced [] r.
Definition doing {A} (e : event) (r : res A) : traced A := Traced [e] r.

Record CVSplit : Type := mkCVSplit {
  stratified : bool;
  cv : cv_arg
}.

(** [x <= 0] for a number; for floats the IEEE comparison, false on nan. *)
Definition number_le_zero (x : number) : bool :=
  match x with
  | NInt n => n <=? 0
  | NFloat f => SFleb f (S754_zero false)
  end.

(** [x.is_integer()] for a float. *)
Definition float_is_integer (x : float) : bool :=
  match x with
  | S754_zero _ => true
  | S754_infinity _ | S754_nan => false
  | S754_finite _ m e => (0 <=? e) || (Z.pos m mod 2 ^ (- e) =? 0)
  end.

(** The float 1.0. *)
Definition float_one : float := S754_finite false 4503599627370496 (-52).

(** [float(n)] for an int raises OverflowError from 2^1024 - 2^970 on,
    the least magnitude that rounds beyond the largest float. *)
Definition int_fits_float (n : Z) : bool := Z.abs n <? 2 ^ 1024 - 2 ^ 970.

Definition is_number (c : cv_arg) : bool :=
  match c with CvNumber _ => true | _ => false end.

Definition CVSplit__init__ (cv : cv_arg) (stratified : bool) : res CVSplit :=
  match cv with
  | CvNumber n =>
      if number_le_zero n then Raise (ValueError MsgCvNotPositive)
      else Ok (mkCVSplit stratified cv)
  | _ => Ok (mkCVSplit stratified cv)
  end.

Definition _is_stratified (cv : splitter) : bool :=
  match cv with
  | StratifiedKFold _ | StratifiedShuffleSplit _ => true
  | _ => false
  end.

Definition _is_float (self : CVSplit) (x : cv_arg) : res bool :=
  match cv self with
  | CvNumber (NInt n) =>
      if int_fits_float n then Ok false else Raise OverflowError
  | CvNumber (NFloat f) => Ok (negb (float_is_integer f))
  | _ => Ok false
  end.

Definition _is_regular (x : data) : bool :=
  match x with
  | PyNone | Array _ | NDFrame _ => true
  | _ => false
  end.

Section CVSplitMethods.
Context `{Ecosystem}.

(** [sklearn.model_selection.check_cv(cv, y, classifier)], after the
    scikit-learn source: [None] is three folds; an integer is a
    [StratifiedKFold] for a classifier with binary or multiclass [y] and
    a [KFold] otherwise (both refuse fewer than two folds); an object
    with a [split] method is returned as it is; an iterable is wrapped;
    anything else is refused. *)
Definition sklearn_check_cv (cv : cv_arg) (y : data) (classifier : bool)
  : res splitter :=
  let folds (n : Z) : res splitter :=
    stratify ← (if classifier && negb (is_none y)
                then t ← type_of_target y;
                     Ok (match t with Binary | Multiclass => true | _ => false end)
                else Ok false);
    if n <=? 1 then Raise (ValueError MsgLibrary)
    else Ok (if stratify : bool then StratifiedKFold n else KFold n) in
  match cv with
  | CvNone => folds 3
  | CvNumber (NInt n) => folds n
  | CvNumber (NFloat _) | CvOther _ => Raise (ValueError MsgLibrary)
  | CvSplitter s => Ok s
  | CvIterable pairs => Ok (CVIterableWrapper pairs)
  end.

(** The construction [ShuffleSplit(test_size=x)], and that of its
    stratified variant, after scikit-learn 0.19: a float [test_size] of 1.0
    or more is refused. *)
Definition shuffle_split_init (test_size : number) : res () :=
  match test_size with
  | NFloat f => if SFleb float_one f then Raise (ValueError MsgLibrary) else Ok ()
  | NInt _ => Ok ()
  end.

Definition _check_cv_float (self : CVSplit) (y : data) : res splitter :=
  match cv self with
  | CvNumber n =>
      let cv_cls := if stratified self then StratifiedShuffleSplit else ShuffleSplit in
      _ ← shuffle_split_init n;
      sklearn_check_cv (CvSplitter (cv_cls n)) y (stratified self)
  | _ => Raise TypeError   (* not reached: [_is_float] holds of numbers only *)
  end.

Definition _check_cv_non_float (self : CVSplit) (y : data) : res splitter :=
  sklearn_check_cv (cv self) y (stratified self).

Definition check_cv (self : CVSplit) (y : data) : res splitter :=
  y_arr ← (if stratified self
           then try_except (to_numpy y) AttributeError (Ok y)
           else Ok PyNone);
  is_float ← _is_float self (cv self);
  if is_float : bool then _check_cv_float self y_arr
  else _check_cv_non_float self y_arr.

(** What [check_cv] does once [y_arr] is settled. *)
Definition resolve_with (self : CVSplit) (y_arr : data) : res splitter :=
  is_float ← _is_float self (cv self);
  if is_float : bool then _check_cv_float self y_arr
  else _check_cv_non_float self y_arr.

(** Iterating over [cv.split( *args )]: the wrapper of an iterable yields
    its pairs whatever the arguments. *)
Definition split (cv : splitter) (args : list data) : res (list (index * index)) :=
  match cv with
  | CVIterableWrapper pairs => Ok pairs
  | _ => generator_split cv args
  end.

(** [next(iter(cv.split( *args )))]. *)
Definition first_split (cv : splitter) (args : list data) : traced (index * index) :=
  doing (ESplit cv args)
    (pairs ← split cv args;
     match pairs with
     | p :: _ => Ok p
     | [] => Raise StopIteration
     end).

Definition regular_cv (self : CVSplit) (X y : data) (cv : splitter)
  : traced (data * data * data * data) :=
  let args := if stratified self then [X; y] else [X] in
  '(idx_train, idx_valid) ← first_split cv args;
  X_train ← doing (ESelect X idx_train) (safe_indexing X idx_train);
  X_valid ← doing (ESelect X idx_valid) (safe_indexing X idx_valid);
  y_train ← (if is_none y then mret PyNone
             else doing (ESelect y idx_train) (safe_indexing y idx_train));
  y_valid ← (if is_none y then mret PyNone
             else doing (ESelect y idx_valid) (safe_indexing y idx_valid));
  mret (X_train, X_valid, y_train, y_valid).

Definition special_cv (self : CVSplit) (X y : data) (cv : splitter)
  : traced (data * data * data * data) :=
  dataset ← quiet (Dataset__init__ X y false None);
  num_samples ← quiet (Dataset__len__ dataset);
  let args := [Array (Num <$> arange num_samples)] in
  args ← quiet (if _is_stratified cv
                then y_arr ← to_numpy y; Ok (args ++ [y_arr])
                else Ok args);
  '(idx_train, idx_valid) ← first_split cv args;
  '(X_train, y_train) ← doing (ESelect X idx_train) (Dataset__getitem__ dataset idx_train);
  '(X_valid, y_valid) ← doing (ESelect X idx_valid) (Dataset__getitem__ dataset idx_valid);
  mret (X_train, X_valid, y_train, y_valid).

Definition CVSplit__call__ (self : CVSplit) (X y : data)
  : traced (data * data * data * data) :=
  cv ← quiet (check_cv self y);
  if stratified self && negb (_is_stratified cv)
  then quiet (Raise (ValueError MsgNotStratified))
  else if _is_regular X && _is_regular y
       then regular_cv self X y cv
       else special_cv self X y cv.
End CVSplitMethods.

(** ** A reference instance of the capabilities

    Arrays, tensors and frames indexed along the first dimension the way
    numpy, torch and pandas do it for one- and two-dimensional numeric
    data; [safe_indexing] after scikit-learn 0.19; [KFold] without
    shuffling.  It is used to run the definitions on concrete inputs. *)

Definition item_value (mk : list item → data) (x : item) : data :=
  match x with
  | Num z => Scalar z
  | Row zs => mk (Num <$> zs)
  end.

Fixpoint mask_select {A} (mask : list bool) (l : list A) : list A :=
  match mask, l with
  | b :: mask', x :: l' => if b then x :: mask_select mask' l' else mask_select mask' l'
  | _, _ => []
  end.

(** [a[i]] along the first dimension, the result built by [mk]. *)
Definition ref_nd_getitem (mk : list item → data) (xs : list item) (i : index)
  : res data :=
  match i with
  | IInt k => item_value mk <$> item_at xs k
  | ISlice a b => Ok (mk (slice_of a b xs))
  | IList pos | IIntArr pos | ISizedIntArr _ pos | ILong pos =>
      mk <$> comprehension (item_at xs) pos
  | IBoolArr mask =>
      if decide (length mask = length xs) then Ok (mk (mask_select mask xs))
      else Raise (IndexError MsgLibrary)
  | IOtherArr _ _ => Raise (IndexError MsgIndexDtype)
  end.

(** [df.iloc[i]]: rows by position; one row comes back as its values. *)
Definition ref_frame_iloc (f : frame) (i : index) : res data :=
  let mk rs := NDFrame (Frame (columns f) rs) in
  match i with
  | IInt k => (λ r, Array (Num <$> r)) <$> item_at (rows f) k
  | ISlice a b => Ok (mk (slice_of a b (rows f)))
  | IList pos | IIntArr pos | ISizedIntArr _ pos | ILong pos =>
      mk <$> comprehension (item_at (rows f)) pos
  | IBoolArr mask =>
      if decide (length mask = length (rows f)) then Ok (mk (mask_select mask (rows f)))
      else Raise (IndexError MsgLibrary)
  | IOtherArr _ _ => Raise (IndexError MsgLibrary)
  end.

(** [df[i]]: a slice or a boolean mask selects rows, anything else is
    looked up among the column names, where no number is found. *)
Definition ref_frame_getitem (f : frame) (i : index) : res data :=
  match i with
  | ISlice _ _ | IBoolArr _ => ref_frame_iloc f i
  | _ => Raise KeyError
  end.

(** [sklearn.utils.safe_indexing(X, indices)], scikit-learn 0.19: [iloc]
    for what has one (after reading [indices.flags], which only an array
    has), [take] or the subscript for what has a [shape], and
    [[X[idx] for idx in indices]] for the rest. *)
Definition ref_safe_indexing (X : data) (indices : index) : res data :=
  match X with
  | NDFrame f =>
      match indices with
      | IBoolArr _ | IIntArr _ | ISizedIntArr _ _ | IOtherArr _ _ =>
          ref_frame_iloc f indices
      | _ => Raise AttributeError
      end
  | Array xs => ref_nd_getitem Array xs indices
  | Tensor xs => ref_nd_getitem Tensor xs indices
  | _ =>
      let subscript (k : Z) : res data :=
        match X with
        | List xs | Tuple xs => item_at xs k
        | Dict _ => Raise KeyError
        | _ => Raise TypeError
        end in
      match indices with
      | IList pos | IIntArr pos | ISizedIntArr _ pos | ILong pos =>
          List <$> comprehension subscript pos
      | IBoolArr mask =>
          List <$> comprehension (λ b : bool, subscript (if b then 1 else 0)) mask
      | IOtherArr _ n => if decide (n = 0%nat) then Ok (List []) else Raise TypeError
      | IInt _ | ISlice _ _ => Raise TypeError
      end
  end.

(** Modelled from the spec: [inferno.utils.to_tensor] is not under src/.
    Section 4.3 has it convert the selected data to tensors; a dict, a
    list or a tuple is converted value by value, and [None] is passed
    through. *)
Fixpoint ref_to_tensor (d : data) (use_cuda : bool) : res data :=
  match d with
  | PyNone => Ok PyNone
  | Scalar z => Ok (Tensor [Num z])
  | Array xs | Tensor xs => Ok (Tensor xs)
  | NDFrame f => Ok (Tensor (Row <$> rows f))
  | Dict kvs =>
      Dict <$> comprehension
        (λ kv : string * data, pair kv.1 <$> ref_to_tensor kv.2 use_cuda) kvs
  | List xs | Tuple xs => List <$> comprehension (λ x, ref_to_tensor x use_cuda) xs
  end.

(** Modelled from the spec: [inferno.utils.to_numpy] is not under src/.
    Section 4.4 has it coerce y into a plain numeric array and fail where
    that does not apply; here it reads the tensor attributes of its
    argument, which only arrays, tensors and frames offer. *)
Definition ref_to_numpy (d : data) : res data :=
  match d with
  | Array xs | Tensor xs => Ok (Array xs)
  | NDFrame f => Ok (Array (Row <$> rows f))
  | _ => Raise AttributeError
  end.

(** The labels of a one-dimensional target. *)
Definition ref_labels (d : data) : option (list Z) :=
  match d with
  | Array xs | Tensor xs =>
      mapM (λ x, match x with Num z => Some z | Row _ => None end) xs
  | List xs | Tuple xs =>
      mapM (λ x, match x with Scalar z => Some z | _ => None end) xs
  | _ => None
  end.

Definition ref_type_of_target (d : data) : res target_type :=
  match ref_labels d with
  | Some ls =>
      Ok (if decide (size (list_to_set ls : gset Z) ≤ 2)%nat then Binary else Multiclass)
  | None =>
      match d with
      | Array _ | Tensor _ | NDFrame _ | List _ | Tuple _ => Ok UnknownTarget
      | _ => Raise (ValueError MsgLibrary)
      end
  end.

(** The folds of [KFold(k)] over [n] samples, without shuffling: fold [i]
    holds out [n / k] consecutive samples, one more for the first
    [n mod k] folds, and trains on the others. *)
Definition ref_kfold (k n : nat) : list (index * index) :=
  (λ i : nat,
     let size := (n / k + (if decide (i < n mod k) then 1 else 0))%nat in
     let start := (i * (n / k) + i `min` (n mod k))%nat in
     let test := seq start size in
     let train := filter (λ j, j ∉ test) (seq 0 n) in
     (IIntArr (Z.of_nat <$> train), IIntArr (Z.of_nat <$> test))) <$> seq 0 k.

(** The generators whose splits depend on numpy's random state or on the
    label counts are not part of the reference. *)
Definition ref_generator_split (cv : splitter) (args : list data)
  : res (list (index * index)) :=
  match cv, args with
  | KFold k, X :: _ =>
      n ← len X;
      if n <? k then Raise (ValueError MsgLibrary)
      else Ok (ref_kfold (Z.to_nat k) (Z.to_nat n))
  | KFold _, [] => Raise TypeError
  | _, _ => Raise NotImplementedError
  end.

#[global] Instance Reference : Ecosystem.
Proof.
  refine {|
    array_getitem := ref_nd_getitem Array;
    tensor_getitem := ref_nd_getitem Tensor;
    frame_getitem := ref_frame_getitem;
    frame_iloc := ref_frame_iloc;
    safe_indexing := ref_safe_indexing;
    to_tensor := ref_to_tensor;
    to_numpy := ref_to_numpy;
    type_of_target := ref_type_of_target;
    generator_split := ref_generator_split
  |}.
  assert (Hnd : ∀ mk xs i, (∀ l, mk l ≠ PyNone) → ref_nd_getitem mk xs i ≠ Ok PyNone).
    { intros mk xs i Hmk Hr. destruct i; simpl in Hr;
        repeat match type of Hr with
          | context [item_at ?l ?k] => destruct (item_at l k) as [[]|]; simpl in Hr
          | context [comprehension ?f ?l] => destruct (comprehension f l); simpl in Hr
          | context [decide ?P] => destruct (decide P); simpl in Hr
          end; try discriminate; inversion Hr as [Hr']; by apply Hmk in Hr'. }
  assert (Hil : ∀ f i, ref_frame_iloc f i ≠ Ok PyNone).
    { intros f i Hr. destruct i; simpl in Hr;
        repeat match type of Hr with
          | context [item_at ?l ?k] => destruct (item_at l k); simpl in Hr
          | context [comprehension ?f ?l] => destruct (comprehension f l); simpl in Hr
          | context [decide ?P] => destruct (decide P); simpl in Hr
          end; discriminate. }
    intros x i r Hr ->.
    destruct x; simpl in Hr;
      try (by eapply Hnd in Hr);
      try (destruct i; try discriminate; by eapply Hil in Hr);
      destruct i; simpl in Hr;
      repeat match type of Hr with
        | context [comprehension ?f ?l] => destruct (comprehension f l); simpl in Hr
        | context [decide ?P] => destruct (decide P); simpl in Hr
        end; discriminate.
Defined.

(** ** Definitions used by the statements *)

(** ** The leaf lengths of a container, after section 3 of the specification

    A leaf is a container that is neither a Mapping nor a Sequence, and its
    length is its element count; the values of a Mapping are flattened
    without their keys; a Sequence is flattened element by element, unless
    one of its elements is not a container, in which case the whole
    Sequence is one leaf with its own [len].  [None] stands for what is not
    a container. *)
Section Each.
Context {A B : Type} (f : A → option B).

Fixpoint each (l : list A) : option (list B) :=
  match l with
  | [] => Some []
  | x :: l' =>
      match f x, each l' with
      | Some y, Some ys => Some (y :: ys)
      | _, _ => None
      end
  end.
End Each.

Fixpoint leaf_lengths (d : data) : option (list Z) :=
  match d with
  | PyNone | Scalar _ => None
  | Array xs | Tensor xs => Some [Z.of_nat (length xs)]
  | NDFrame f => Some [Z.of_nat (length (rows f))]
  | Dict kvs =>
      match each (λ kv : string * data, leaf_lengths kv.2) kvs with
      | Some lss => Some (concat lss)
      | None => None
      end
  | List xs | Tuple xs =>
      match each leaf_lengths xs with
      | Some lss => Some (concat lss)
      | None => Some [Z.of_nat (length xs)]
      end
  end.

(** What [_apply_to_data] with [len] and unpacked dicts does on [d],
    against the leaf lengths of [d]. *)
Definition resolves (d : data) : Prop :=
  match leaf_lengths d with
  | Some ls => ∃ t, _apply_to_data len true d = Ok t ∧ flatten t = ls
  | None => _apply_to_data len true d = Raise TypeError
  end.

(** A dict of an array, a plain list of numbers (one leaf) and a list of a
    tensor and a frame, all of three samples; and the same with a plain
    list of two numbers. *)
Definition three_samples : data :=
  Dict [("a", Array [Num 1; Num 2; Num 3]);
        ("b", List [Scalar 7; Scalar 8; Scalar 9]);
        ("c", List [Tensor [Row [1; 1]; Row [2; 2]; Row [3; 3]];
                    NDFrame (Frame ["u"; "v"] [[1; 2]; [3; 4]; [5; 6]])])]%string.

Definition uneven_samples : data :=
  Dict [("a", Array [Num 1; Num 2; Num 3]);
        ("b", List [Scalar 7; Scalar 8])]%string.


(** [0 < x] for a number. *)
Definition number_positive (x : number) : bool :=
  match x with
  | NInt n => 0 <? n
  | NFloat f => SFltb (S754_zero false) f
  end.

(** The floats 0.5 and -0.5. *)
Definition half : float := S754_finite false 4503599627370496 (-53).
Definition minus_half : float := S754_finite true 4503599627370496 (-53).

(** Four samples in an array, in a dict of one array, and their labels. *)
Definition four_samples : data := Array [Num 10; Num 11; Num 12; Num 13].
Definition four_labels : data := Array [Num 0; Num 1; Num 0; Num 1].
Definition four_named : data := Dict [("a", four_samples)]%string.

(** The result of [_apply_to_data] with the keys of its dicts dropped. *)
Fixpoint forget_keys {A} (t : applied A) : applied A :=
  match t with
  | Leaf a => Leaf a
  | Items ts => Items (map forget_keys ts)
  | Named kts => Items (map (λ kt : string * applied A, forget_keys kt.2) kts)
  end.

(** [slice(None, None)], the full range. *)
Definition full_range : index := ISlice None None.







(** No tuple is met when the nested lists of [d] are walked through. *)
Fixpoint no_tuple_items (d : data) : bool :=
  match d with
  | Tuple _ => false
  | List xs => forallb no_tuple_items xs
  | _ => true
  end.

(** A list of two arrays. *)
Definition two_arrays : data :=
  List [Array [Num 1; Num 2; Num 3]; Array [Num 4; Num 5; Num 6]].

(** * Proofs *)

(** The examples of the docstring of [multi_indexing]. *)
Example multi_indexing_doc_int :
  multi_indexing (Array [Num 1; Num 2; Num 3]) (IInt 0) = Ok (Scalar 1).
Proof. reflexivity. Qed.

Example multi_indexing_doc_slice :
  multi_indexing (Array [Num 1; Num 2; Num 3]) (ISlice None (Some 2))
  = Ok (Array [Num 1; Num 2]).
Proof. reflexivity. Qed.

Example multi_indexing_doc_list :
  multi_indexing
    (List [List [Scalar 1; Scalar 2; Scalar 3]; List [Scalar 4; Scalar 5; Scalar 6]])
    (ISlice None (Some 2))
  = Ok (List [List [Scalar 1; Scalar 2]; List [Scalar 4; Scalar 5]]).
Proof. reflexivity. Qed.

Example multi_indexing_doc_dict :
  multi_indexing
    (Dict [("a", List [Scalar 1; Scalar 2; Scalar 3]);
           ("b", List [Scalar 4; Scalar 5; Scalar 6])]%string)
    (ISlice (Some (-2)) None)
  = Ok (Dict [("a", List [Scalar 2; Scalar 3]); ("b", List [Scalar 5; Scalar 6])]%string).
Proof. reflexivity. Qed.

(** * Length resolution: proofs *)

Lemma comprehension_resolves {A} (g : A → data) (l : list A) :
  Forall (λ x, resolves (g x)) l →
  match each (λ x, leaf_lengths (g x)) l with
  | Some lss =>
      ∃ ts, comprehension (λ x, _apply_to_data len true (g x)) l = Ok ts
            ∧ map flatten ts = lss
  | None => comprehension (λ x, _apply_to_data len true (g x)) l = Raise TypeError
  end.
Proof.
  induction 1 as [|x l Hx _ IH]; simpl.
  - by exists [].
  - unfold resolves in Hx.
    destruct (leaf_lengths (g x)) as [ls|].
    + destruct Hx as (t & -> & <-).
      destruct (each _ l) as [lss|].
      * destruct IH as (ts & -> & <-). by exists (t :: ts).
      * by rewrite IH.
    + by rewrite Hx.
Qed.

Lemma apply_resolves (d : data) : resolves d.
Proof.
  induction d as [| z | xs | xs | f | kvs IH | xs IH | xs IH] using data_ind';
    unfold resolves; simpl; eauto.
  - pose proof (comprehension_resolves snd kvs IH) as Hc.
    destruct (each _ kvs) as [lss|]; simpl.
    + destruct Hc as (ts & -> & <-). by exists (Items ts).
    + by rewrite Hc.
  - pose proof (comprehension_resolves id xs IH) as Hc. simpl in Hc.
    change (λ x : data, leaf_lengths x) with leaf_lengths in Hc.
    change (λ x : data, _apply_to_data len true x) with (_apply_to_data len true) in Hc.
    destruct (each leaf_lengths xs) as [lss|].
    + destruct Hc as (ts & -> & <-). by exists (Items ts).
    + rewrite Hc. simpl. by eexists.
  - pose proof (comprehension_resolves id xs IH) as Hc. simpl in Hc.
    change (λ x : data, leaf_lengths x) with leaf_lengths in Hc.
    change (λ x : data, _apply_to_data len true x) with (_apply_to_data len true) in Hc.
    destruct (each leaf_lengths xs) as [lss|].
    + destruct Hc as (ts & -> & <-). by exists (Items ts).
    + rewrite Hc. simpl. by eexists.
Qed.

(** The lengths that [get_len] collects are the leaf lengths; what is not
    a container is a type error. *)
Lemma collected_lens_leaf_lengths (d : data) :
  collected_lens d =
  match leaf_lengths d with Some ls => Ok ls | None => Raise TypeError end.
Proof.
  pose proof (apply_resolves d) as Hd. unfold resolves, collected_lens in *.
  destruct (leaf_lengths d) as [ls|].
  - destruct Hd as (t & -> & <-). simpl. by rewrite app_nil_r.
  - by rewrite Hd.
Qed.

Lemma get_len_collected (d : data) (ls : list Z) :
  collected_lens d = Ok ls →
  get_len d =
  if decide (size (list_to_set ls : gset Z) ≠ 1%nat)
  then Raise (ValueError MsgInconsistentLengths)
  else match elements (list_to_set ls : gset Z) with
       | n :: _ => Ok n
       | [] => Raise (IndexError MsgLibrary)
       end.
Proof. intros Hc. unfold get_len. by rewrite Hc. Qed.

Lemma list_to_set_common (ls : list Z) (n : Z) :
  ls ≠ [] → (∀ x, x ∈ ls → x = n) → (list_to_set ls : gset Z) = {[ n ]}.
Proof.
  intros Hne Hall. apply set_eq. intros x.
  rewrite elem_of_list_to_set, elem_of_singleton. split; [by apply Hall|].
  intros ->. destruct ls as [|h ls]; [done|].
  rewrite <- (Hall h); [|by left]. by left.
Qed.

Lemma get_len_common (d : data) (ls : list Z) (n : Z) :
  collected_lens d = Ok ls → ls ≠ [] → (∀ x, x ∈ ls → x = n) → get_len d = Ok n.
Proof.
  intros Hc Hne Hall. rewrite (get_len_collected d ls Hc).
  rewrite (list_to_set_common ls n Hne Hall), size_singleton, elements_singleton.
  by rewrite decide_False by auto.
Qed.

Lemma get_len_differ (d : data) (ls : list Z) (a b : Z) :
  collected_lens d = Ok ls → a ∈ ls → b ∈ ls → a ≠ b →
  get_len d = Raise (ValueError MsgInconsistentLengths).
Proof.
  intros Hc Ha Hb Hab. rewrite (get_len_collected d ls Hc).
  rewrite decide_True; [done|]. intros Hsz. apply Hab.
  eapply (size_singleton_inv (list_to_set ls : gset Z)); eauto;
    by apply elem_of_list_to_set.
Qed.

Lemma get_len_returns_iff (d : data) (ls : list Z) :
  collected_lens d = Ok ls →
  (∃ n, get_len d = Ok n) ↔ size (list_to_set ls : gset Z) = 1%nat.
Proof.
  intros Hc. rewrite (get_len_collected d ls Hc). split.
  - intros [n Hn]. destruct (decide (size _ ≠ 1%nat)) as [|Hsz]; [done|].
    by apply dec_stable.
  - intros Hsz. rewrite decide_False by (by intros ?).
    destruct (size_1_elem_of _ Hsz) as [x Hx].
    apply leibniz_equiv in Hx. rewrite Hx, elements_singleton. by exists x.
Qed.

(** C5.  For a nested container with leaf lengths [ls] (Mapping values
    flattened without their keys, a Sequence with an element that is not a
    container counted as one leaf with its own [len]): [get_len] collects
    exactly [ls]; if there is a leaf and all leaves have length [n], it
    returns [n]; if two leaves have different lengths, it raises the
    inconsistent-lengths error. *)
Theorem get_len_leaf_lengths (d : data) (ls : list Z) :
  leaf_lengths d = Some ls →
  collected_lens d = Ok ls
  ∧ (∀ n, ls ≠ [] → (∀ x, x ∈ ls → x = n) → get_len d = Ok n)
  ∧ (∀ a b, a ∈ ls → b ∈ ls → a ≠ b →
       get_len d = Raise (ValueError MsgInconsistentLengths)).
Proof.
  intros Hl. pose proof (collected_lens_leaf_lengths d) as Hc. rewrite Hl in Hc.
  split_and!; [done| |].
  - intros n. by apply get_len_common.
  - intros a b. by apply get_len_differ.
Qed.

Lemma get_len_leaf_lengths_witness :
  get_len three_samples = Ok 3
  ∧ get_len uneven_samples = Raise (ValueError MsgInconsistentLengths).
Proof.
  split.
  - apply (get_len_leaf_lengths three_samples [3; 3; 3; 3]); [reflexivity|discriminate|].
    intros x Hx. repeat (apply elem_of_cons in Hx as [->|Hx]; [reflexivity|]).
    by apply elem_of_nil in Hx.
  - apply (get_len_leaf_lengths uneven_samples [3; 2] eq_refl) with (a := 3) (b := 2).
    + by left.
    + right. by left.
    + discriminate.
Defined.

(** C10.  [get_len] returns exactly when the set of the lengths it
    collected has one element; so on a container that flattens to no leaf
    length at all (an empty dict, an empty list) it raises the
    inconsistent-lengths error, and so does the construction of a Dataset
    on it without an explicit length. *)
Theorem get_len_no_leaf (d : data) (ls : list Z) :
  collected_lens d = Ok ls →
  ((∃ n, get_len d = Ok n) ↔ size (list_to_set ls : gset Z) = 1%nat)
  ∧ (ls = [] →
     get_len d = Raise (ValueError MsgInconsistentLengths)
     ∧ ∀ y use_cuda,
         Dataset__init__ d y use_cuda None = Raise (ValueError MsgInconsistentLengths)).
Proof.
  intros Hc. split; [by apply get_len_returns_iff|].
  intros ->.
  assert (Hg : get_len d = Raise (ValueError MsgInconsistentLengths)).
  { rewrite (get_len_collected d [] Hc). reflexivity. }
  split; [done|]. intros y use_cuda. unfold Dataset__init__. by rewrite Hg.
Qed.

Lemma get_len_no_leaf_witness :
  get_len (Dict []) = Raise (ValueError MsgInconsistentLengths)
  ∧ get_len (List []) = Raise (ValueError MsgInconsistentLengths)
  ∧ Dataset__init__ (List [List []; Dict []]) PyNone false None
    = Raise (ValueError MsgInconsistentLengths).
Proof.
  split_and!.
  - apply (get_len_no_leaf (Dict []) [] eq_refl). reflexivity.
  - apply (get_len_no_leaf (List []) [] eq_refl). reflexivity.
  - apply (get_len_no_leaf (List [List []; Dict []]) [] eq_refl). reflexivity.
Defined.

(** * Dataset: proofs *)

(** C1.  A construction with an explicit length succeeds without resolving
    any length and stores it under [_length]; [__len__] reads [_len], which
    that construction never sets, and raises. *)
Theorem Dataset_explicit_length (X y : data) (use_cuda : bool) (n : Z) :
  ∃ self,
    Dataset__init__ X y use_cuda (Some n) = Ok self
    ∧ getattr self "_length" = Ok n
    ∧ Dataset__len__ self = Raise AttributeError.
Proof. eexists. split_and!; reflexivity. Qed.

(** Without an explicit length the resolved length is stored under [_len]
    and [__len__] returns it. *)
Lemma Dataset_resolved_length (X y : data) (use_cuda : bool) (self : Dataset) :
  Dataset__init__ X y use_cuda None = Ok self →
  ∃ n, get_len X = Ok n ∧ Dataset__len__ self = Ok n
       ∧ ds_X self = X ∧ ds_y self = y ∧ ds_use_cuda self = use_cuda
       ∧ (y ≠ PyNone → get_len y = Ok n).
Proof.
  unfold Dataset__init__. destruct (get_len X) as [n|]; [|done]. simpl.
  destruct y; simpl;
    try (intros [= <-]; exists n; split_and!; done);
    match goal with
    | |- context [get_len ?v] => destruct (get_len v) as [m|]; [|done]
    end; simpl;
    (destruct (decide (m ≠ n)) as [|Heq]; [done|]);
    apply dec_stable in Heq as ->; simpl;
    intros [= <-]; exists n; split_and!; done.
Qed.

(** * Indexing: proofs *)




Lemma nonzero_all_false (n : nat) : nonzero (replicate n false) = [].
Proof.
  unfold nonzero. generalize 0. induction n as [|n IH]; intros k; [done|].
  simpl. apply IH.
Qed.

Section IndexingProofs.
Context `{Ecosystem}.

(** [multi_indexing] normalises the index, then looks at the container. *)
Lemma multi_indexing_normalized (d : data) (i i' : index) :
  normalize_index i = Ok i' → multi_indexing d i = multi_indexing d i'.
Proof.
  intros Hi.
  assert (Hi' : normalize_index i' = Ok i').
  { destruct i; cbv in Hi; try discriminate; by injection Hi as <-. }
  destruct d; simpl; by rewrite Hi, Hi'.
Qed.

Lemma multi_indexing_refused (d : data) (i : index) (e : exc) :
  normalize_index i = Raise e → multi_indexing d i = Raise e.
Proof. intros Hi. destruct d; simpl; by rewrite Hi. Qed.

Lemma comprehension_dict_items (kvs kvs' : list (string * data)) (i : index) :
  comprehension (λ kv : string * data, pair kv.1 <$> getitem kv.2 i) kvs = Ok kvs'
  ↔ kvs'.*1 = kvs.*1 ∧ Forall2 (λ kv kv', getitem kv.2 i = Ok kv'.2) kvs kvs'.
Proof.
  revert kvs'. induction kvs as [|[k v] kvs IH]; intros kvs'; simpl.
  - split.
    + intros [= <-]. split; [done|constructor].
    + intros [_ Hf]. by inversion Hf.
  - split.
    + destruct (getitem v i) as [v'|] eqn:Hv; simpl; [|done].
      destruct (comprehension _ kvs) as [rest|]; [|done].
      intros [= <-]. destruct (proj1 (IH rest) eq_refl) as [Hk Hf].
      simpl. split; [by f_equal|]. constructor; done.
    + intros [Hk Hf]. inversion Hf as [|kv [k' v'] l l' Hv Hf' E1 E2]; subst.
      simpl in *. injection Hk as -> Hk. rewrite Hv. simpl.
      by rewrite (proj2 (IH l') (conj Hk Hf')).
Qed.


(** C7.  An array index whose element type is neither boolean nor
    integer makes [multi_indexing] raise the index-type error whatever the
    container is, none of its operations being reached; a boolean array and
    an array of the default integer type pass the check and become a list
    of positions.  An integer array of another width (int32, uint8, ...)
    does not pass: [i.dtype == int] is false of it, and it is refused with
    the error whose message asks for an integer or boolean type. *)
Theorem multi_indexing_index_dtype :
  (∀ d dt n, multi_indexing d (IOtherArr dt n) = Raise (IndexError MsgIndexDtype))
  ∧ (∀ mask, normalize_index (IBoolArr mask) = Ok (IList (nonzero mask)))
  ∧ (∀ pos, normalize_index (IIntArr pos) = Ok (IList pos))
  ∧ (∀ d dt pos,
       multi_indexing d (ISizedIntArr dt pos) = Raise (IndexError MsgIndexDtype))
  ∧ (∀ i e, normalize_index i = Raise e ↔
            e = IndexError MsgIndexDtype
            ∧ ((∃ dt n, i = IOtherArr dt n) ∨ (∃ dt pos, i = ISizedIntArr dt pos))).
Proof.
  split_and!; try done.
  - intros d dt n. by apply multi_indexing_refused.
  - intros d dt pos. by apply multi_indexing_refused.
  - intros i e. split.
    + destruct i; simpl; intros [= <-]; eauto 6.
    + intros [-> [(dt & n & ->)|(dt & pos & ->)]]; done.
Qed.

(** X14.  For a dict and an index that the normalisation
    turns into [i'], [multi_indexing] returns exactly when the subscript
    [v[i']] of every value returns, and then returns a dict with the same
    keys in the same order whose values are those subscripts: the values
    are not passed through [multi_indexing]. *)
Lemma multi_indexing_dict_subscript
    (kvs : list (string * data)) (i i' : index) (r : data) :
  normalize_index i = Ok i' →
  multi_indexing (Dict kvs) i = Ok r
  ↔ ∃ kvs', r = Dict kvs' ∧ kvs'.*1 = kvs.*1
            ∧ Forall2 (λ kv kv', getitem kv.2 i' = Ok kv'.2) kvs kvs'.
Proof.
  intros Hi. simpl. rewrite Hi. simpl. split.
  - destruct (comprehension _ kvs) as [kvs'|] eqn:Hc; [|done].
    intros [= <-]. exists kvs'. split; [done|]. by apply comprehension_dict_items.
  - intros (kvs' & -> & Hk & Hf).
    by rewrite (proj2 (comprehension_dict_items kvs kvs' i') (conj Hk Hf)).
Qed.
End IndexingProofs.

Lemma multi_indexing_dict_subscript_witness :
  multi_indexing (Dict [("a", Array [Num 1; Num 2; Num 3]);
                        ("b", Tensor [Num 4; Num 5; Num 6])]%string)
                 (IBoolArr [true; false; true])
  = Ok (Dict [("a", Array [Num 1; Num 3]); ("b", Tensor [Num 4; Num 6])]%string).
Proof.
  apply (multi_indexing_dict_subscript _ (IBoolArr [true; false; true]) (IList [0; 2]) _ eq_refl).
  eexists. split; [reflexivity|]. split; [reflexivity|].
  repeat constructor.
Defined.

(** C2.  A value of a dict is subscripted, not selected by
    [multi_indexing] as the elements of a list are: [multi_indexing]
    selects the first sample of the dict [{"b": array([1, 2, 3])}] and the
    first row of a frame, but when that dict or that frame is the value of
    another dict it is subscripted with [0], which is not among its keys or
    its column names. *)
Lemma multi_indexing_dict_no_dispatch :
  multi_indexing (Dict [("b", Array [Num 1; Num 2; Num 3])]%string) (IInt 0)
  = Ok (Dict [("b", Scalar 1)]%string)
  ∧ multi_indexing
      (Dict [("a", Dict [("b", Array [Num 1; Num 2; Num 3])])]%string) (IInt 0)
    = Raise KeyError
  ∧ multi_indexing (NDFrame (Frame ["u"; "v"] [[1; 2]; [3; 4]])) (IInt 0)
    = Ok (Array [Num 1; Num 2])
  ∧ multi_indexing (Dict [("a", NDFrame (Frame ["u"; "v"] [[1; 2]; [3; 4]]))]%string) (IInt 0)
    = Raise KeyError
  ∧ multi_indexing
      (List [Dict [("b", Array [Num 1; Num 2; Num 3])]%string]) (IInt 0)
    = Ok (List [Dict [("b", Scalar 1)]%string]).
Proof. split_and!; reflexivity. Qed.



(** With the reference libraries an all-false mask selects the empty
    array, tensor or frame. *)
Example multi_indexing_all_false (xs : list item) (f : frame) (n : nat) :
  multi_indexing (Array xs) (IBoolArr (replicate n false)) = Ok (Array [])
  ∧ multi_indexing (Tensor xs) (IBoolArr (replicate n false)) = Ok (Tensor [])
  ∧ multi_indexing (NDFrame f) (IBoolArr (replicate n false))
    = Ok (NDFrame (Frame (columns f) [])).
Proof. simpl. by rewrite nonzero_all_false. Qed.

(** * CVSplit: proofs *)

Lemma number_positive_not_le_zero (x : number) :
  number_positive x = true → number_le_zero x = false.
Proof.
  destruct x as [n|f]; simpl.
  - intros Hn. apply Z.ltb_lt in Hn. by apply Z.leb_gt.
  - destruct f as [s|s| |s m e]; try destruct s; done.
Qed.

(** C9.  The construction of a [CVSplit] raises the configuration error
    when [cv] is a number that is at most zero, and returns the splitter
    with [cv] and [stratified] stored when [cv] is a positive number or is
    not a number. *)
Theorem CVSplit_init_number (cv : cv_arg) (stratified : bool) :
  (∀ n, cv = CvNumber n → number_le_zero n = true →
        CVSplit__init__ cv stratified = Raise (ValueError MsgCvNotPositive))
  ∧ (∀ n, cv = CvNumber n → number_positive n = true →
          CVSplit__init__ cv stratified = Ok (mkCVSplit stratified cv))
  ∧ (is_number cv = false → CVSplit__init__ cv stratified = Ok (mkCVSplit stratified cv)).
Proof.
  split_and!.
  - intros n -> Hn. simpl. by rewrite Hn.
  - intros n -> Hn. simpl. by rewrite (number_positive_not_le_zero n Hn).
  - by destruct cv.
Qed.

Lemma CVSplit_init_number_witness :
  CVSplit__init__ (CvNumber (NInt 0)) false = Raise (ValueError MsgCvNotPositive)
  ∧ CVSplit__init__ (CvNumber (NFloat minus_half)) true = Raise (ValueError MsgCvNotPositive)
  ∧ CVSplit__init__ (CvNumber (NInt 5)) false = Ok (mkCVSplit false (CvNumber (NInt 5)))
  ∧ CVSplit__init__ (CvNumber (NFloat half)) true = Ok (mkCVSplit true (CvNumber (NFloat half)))
  ∧ CVSplit__init__ CvNone false = Ok (mkCVSplit false CvNone)
  ∧ CVSplit__init__ (CvSplitter (KFold 3)) false = Ok (mkCVSplit false (CvSplitter (KFold 3)))
  ∧ CVSplit__init__ (CvIterable [(IIntArr [0], IIntArr [1])]) false
    = Ok (mkCVSplit false (CvIterable [(IIntArr [0], IIntArr [1])])).
Proof.
  split_and!.
  - by apply (CVSplit_init_number (CvNumber (NInt 0)) false) with (n := NInt 0).
  - by apply (CVSplit_init_number (CvNumber (NFloat minus_half)) true)
      with (n := NFloat minus_half).
  - by apply (CVSplit_init_number (CvNumber (NInt 5)) false) with (n := NInt 5).
  - by apply (CVSplit_init_number (CvNumber (NFloat half)) true) with (n := NFloat half).
  - by apply (CVSplit_init_number CvNone false).
  - by apply (CVSplit_init_number (CvSplitter (KFold 3)) false).
  - by apply (CVSplit_init_number (CvIterable [(IIntArr [0], IIntArr [1])]) false).
Defined.

Section CVSplitProofs.
Context `{Ecosystem}.



(** C8.  With [stratified] set, when the resolution returns a generator
    that is neither a [StratifiedKFold] nor a [StratifiedShuffleSplit],
    the call raises the stratification error and has drawn no split and
    selected nothing. *)
Theorem CVSplit_call_not_stratified (self : CVSplit) (X y : data) (cv : splitter) :
  stratified self = true →
  check_cv self y = Ok cv →
  _is_stratified cv = false →
  CVSplit__call__ self X y = Traced [] (Raise (ValueError MsgNotStratified)).
Proof.
  intros Hs Hcv Hns. unfold CVSplit__call__. rewrite Hcv. simpl.
  by rewrite Hs, Hns.
Qed.
End CVSplitProofs.


Lemma CVSplit_call_not_stratified_witness :
  CVSplit__call__ (mkCVSplit true (CvNumber (NInt 3)))
    (Array [Num 1; Num 2; Num 3; Num 4]) PyNone
  = Traced [] (Raise (ValueError MsgNotStratified))
  ∧ CVSplit__call__ (mkCVSplit true (CvIterable [(IIntArr [0; 1], IIntArr [2; 3])]))
      (Array [Num 1; Num 2; Num 3; Num 4]) (Array [Num 0; Num 1; Num 0; Num 1])
    = Traced [] (Raise (ValueError MsgNotStratified)).
Proof.
  split.
  - by apply (CVSplit_call_not_stratified _ _ _ (KFold 3)).
  - by apply (CVSplit_call_not_stratified _ _ _
                (CVIterableWrapper [(IIntArr [0; 1], IIntArr [2; 3])])).
Defined.

Lemma traced_bind_ok {A B} (m : traced A) (f : A → traced B) (r : B) :
  result_of (m ≫= f) = Ok r → ∃ a, result_of m = Ok a ∧ result_of (f a) = Ok r.
Proof.
  destruct m as [log [a|e]]; simpl; [|done].
  intros Hr. exists a. split; [done|]. by destruct (f a).
Qed.

Lemma res_bind_ok {A B} (m : res A) (f : A → res B) (r : B) :
  m ≫= f = Ok r → ∃ a, m = Ok a ∧ f a = Ok r.
Proof. destruct m as [a|e]; simpl; [|done]. intros Hr. by exists a. Qed.

Tactic Notation "traced_inv" hyp(H) "as" ident(a) ident(Ha) :=
  apply traced_bind_ok in H as (a & Ha & H).

Section SplitResultProofs.
Context `{Ecosystem}.




End SplitResultProofs.



(** * Further properties of the file *)

(** ** Length resolution and Dataset construction *)

Lemma leaf_lengths_nonneg (d : data) (ls : list Z) :
  leaf_lengths d = Some ls → Forall (λ x, 0 ≤ x) ls.
Proof.
  revert ls.
  induction d as [| z | xs | xs | f | kvs IH | xs IH | xs IH] using data_ind';
    intros ls; simpl; try done;
    try (intros [= <-]; constructor; [lia|constructor]).
  - assert (Hall : ∀ lss, each (λ kv : string * data, leaf_lengths kv.2) kvs = Some lss →
                          Forall (Forall (λ x, 0 ≤ x)) lss).
    { induction IH as [|kv kvs Hkv _ IHk]; simpl; intros lss.
      - intros [= <-]. constructor.
      - destruct (leaf_lengths kv.2) as [l|]; [|done].
        destruct (each _ kvs) as [lss'|]; [|done].
        intros [= <-]. constructor; [by apply Hkv|by apply IHk]. }
    destruct (each _ kvs) as [lss|]; [|done].
    intros [= <-]. apply Forall_concat. by apply Hall.
  - assert (Hall : ∀ lss, each leaf_lengths xs = Some lss →
                          Forall (Forall (λ x, 0 ≤ x)) lss).
    { induction IH as [|x xs' Hx _ IHx]; simpl; intros lss.
      - intros [= <-]. constructor.
      - destruct (leaf_lengths x) as [l|]; [|done].
        destruct (each _ xs') as [lss'|]; [|done].
        intros [= <-]. constructor; [by apply Hx|by apply IHx]. }
    destruct (each leaf_lengths xs) as [lss|].
    + intros [= <-]. apply Forall_concat. by apply Hall.
    + intros [= <-]. constructor; [lia|constructor].
  - assert (Hall : ∀ lss, each leaf_lengths xs = Some lss →
                          Forall (Forall (λ x, 0 ≤ x)) lss).
    { induction IH as [|x xs' Hx _ IHx]; simpl; intros lss.
      - intros [= <-]. constructor.
      - destruct (leaf_lengths x) as [l|]; [|done].
        destruct (each _ xs') as [lss'|]; [|done].
        intros [= <-]. constructor; [by apply Hx|by apply IHx]. }
    destruct (each leaf_lengths xs) as [lss|].
    + intros [= <-]. apply Forall_concat. by apply Hall.
    + intros [= <-]. constructor; [lia|constructor].
Qed.

Lemma get_len_member (d : data) (n : Z) :
  get_len d = Ok n → ∃ ls, collected_lens d = Ok ls ∧ n ∈ ls.
Proof.
  intros Hn. destruct (collected_lens d) as [ls|e] eqn:Hc.
  - exists ls. split; [done|].
    rewrite (get_len_collected d ls Hc) in Hn.
    destruct (decide (size (list_to_set ls : gset Z) ≠ 1%nat)); [done|].
    destruct (elements (list_to_set ls : gset Z)) as [|m l] eqn:He; [done|].
    injection Hn as ->.
    apply (elem_of_list_to_set (C := gset Z)), elem_of_elements. rewrite He. by left.
  - unfold get_len in Hn. by rewrite Hc in Hn.
Qed.

Lemma get_len_nonneg (d : data) (n : Z) : get_len d = Ok n → 0 ≤ n.
Proof.
  intros Hn. destruct (get_len_member d n Hn) as (ls & Hc & Hin).
  rewrite collected_lens_leaf_lengths in Hc.
  destruct (leaf_lengths d) as [ls'|] eqn:Hl; [|done]. injection Hc as ->.
  by apply (proj1 (Forall_forall _ _) (leaf_lengths_nonneg d ls Hl)).
Qed.

Lemma get_len_list_collects (xs : list data) : ∃ ls, collected_lens (List xs) = Ok ls.
Proof.
  rewrite collected_lens_leaf_lengths. simpl.
  destruct (each leaf_lengths xs); eauto.
Qed.

Lemma get_len_tuple_collects (xs : list data) : ∃ ls, collected_lens (Tuple xs) = Ok ls.
Proof.
  rewrite collected_lens_leaf_lengths. simpl.
  destruct (each leaf_lengths xs); eauto.
Qed.

(** X1.  [get_len] of a list or a tuple never raises a type error: an
    element that is not a container makes the list one leaf, so the call
    returns or raises the inconsistent-lengths error.  Outside a list the
    type error of [len] reaches the caller: for [None], for a number, and
    for a dict one of whose values is a number. *)
Theorem get_len_type_error :
  (∀ xs, (∃ n, get_len (List xs) = Ok n)
         ∨ get_len (List xs) = Raise (ValueError MsgInconsistentLengths))
  ∧ (∀ d, leaf_lengths d = None → get_len d = Raise TypeError)
  ∧ get_len PyNone = Raise TypeError
  ∧ (∀ z, get_len (Scalar z) = Raise TypeError)
  ∧ (∀ k z kvs, get_len (Dict ((k, Scalar z) :: kvs)) = Raise TypeError)
  ∧ (∀ k z kvs, get_len (List [Dict ((k, Scalar z) :: kvs)]) = Ok 1)
  ∧ (∀ xs, (∃ n, get_len (Tuple xs) = Ok n)
           ∨ get_len (Tuple xs) = Raise (ValueError MsgInconsistentLengths)).
Proof.
  split_and!; try done.
  - intros xs. destruct (get_len_list_collects xs) as [ls Hc].
    destruct (decide (size (list_to_set ls : gset Z) = 1%nat)) as [Hs|Hs].
    + left. by apply (get_len_returns_iff _ ls Hc).
    + right. rewrite (get_len_collected _ ls Hc). by rewrite decide_True.
  - intros d Hd. unfold get_len. rewrite collected_lens_leaf_lengths, Hd. done.
  - intros xs. destruct (get_len_tuple_collects xs) as [ls Hc].
    destruct (decide (size (list_to_set ls : gset Z) = 1%nat)) as [Hs|Hs].
    + left. by apply (get_len_returns_iff _ ls Hc).
    + right. rewrite (get_len_collected _ ls Hc). by rewrite decide_True.
Qed.

(** X2.  Without an explicit length, the construction of a Dataset
    resolves the length of [X] and, when [y] is not [None], that of [y]:
    it returns a dataset of the common length (whose [__len__] returns it
    and which keeps [X], [y] and [use_cuda]) when [y] is [None] or has the
    length of [X]; it raises the X-and-y error when the two lengths differ;
    and an error of either resolution is the error of the construction. *)
Theorem Dataset_init_lengths (X y : data) (use_cuda : bool) :
  (∀ n, get_len X = Ok n → y = PyNone ∨ get_len y = Ok n →
        ∃ self, Dataset__init__ X y use_cuda None = Ok self
                ∧ Dataset__len__ self = Ok n
                ∧ ds_X self = X ∧ ds_y self = y ∧ ds_use_cuda self = use_cuda)
  ∧ (∀ n m, get_len X = Ok n → y ≠ PyNone → get_len y = Ok m → m ≠ n →
            Dataset__init__ X y use_cuda None = Raise (ValueError MsgXyLengths))
  ∧ (∀ e, get_len X = Raise e → Dataset__init__ X y use_cuda None = Raise e)
  ∧ (∀ n e, get_len X = Ok n → y ≠ PyNone → get_len y = Raise e →
            Dataset__init__ X y use_cuda None = Raise e).
Proof.
  unfold Dataset__init__. split_and!.
  - intros n HX Hy. rewrite HX. simpl.
    destruct (is_none y) eqn:Hn.
    + eexists. split_and!; reflexivity.
    + destruct Hy as [->|Hy]; [done|]. rewrite Hy. simpl.
      rewrite decide_False by (by intros ?). eexists. split_and!; reflexivity.
  - intros n m HX Hy Hm Hne. rewrite HX. simpl.
    destruct (is_none y) eqn:Hn; [by destruct y|].
    rewrite Hm. simpl. by rewrite decide_True.
  - intros e HX. by rewrite HX.
  - intros n e HX Hy He. rewrite HX. simpl.
    destruct (is_none y) eqn:Hn; [by destruct y|]. by rewrite He.
Qed.

Lemma Dataset_init_lengths_witness :
  (∃ self, Dataset__init__ three_samples PyNone false None = Ok self
           ∧ Dataset__len__ self = Ok 3)
  ∧ Dataset__init__ three_samples uneven_samples false None
    = Raise (ValueError MsgInconsistentLengths)
  ∧ Dataset__init__ three_samples (Array [Num 1; Num 2]) false None
    = Raise (ValueError MsgXyLengths).
Proof.
  destruct (Dataset_init_lengths three_samples PyNone false) as (Hok & _).
  destruct (Dataset_init_lengths three_samples uneven_samples false) as (_ & _ & _ & Hy).
  destruct (Dataset_init_lengths three_samples (Array [Num 1; Num 2]) false)
    as (_ & Hne & _).
  split_and!.
  - destruct (Hok 3 eq_refl (or_introl eq_refl)) as (self & Hs & Hl & _).
    by exists self.
  - by apply (Hy 3).
  - by apply (Hne 3 2).
Defined.

Lemma comprehension_values {A B} (f : A → res B) {K} (kvs : list (K * A)) :
  comprehension (λ kv : K * A, f kv.2) kvs = comprehension f (kvs.*2).
Proof. induction kvs as [|kv kvs IH]; simpl; [done|]. by rewrite IH. Qed.

Lemma each_values {A B} (f : A → option B) {K} (kvs : list (K * A)) :
  each (λ kv : K * A, f kv.2) kvs = each f (kvs.*2).
Proof. induction kvs as [|kv kvs IH]; simpl; [done|]. by rewrite IH. Qed.

(** X3.  [get_len] does not look at the keys of a dict: two dicts with the
    same values in the same order resolve alike, and a dict all of whose
    values are containers resolves like the list of its values. *)
Theorem get_len_dict_values (kvs kvs' : list (string * data)) :
  kvs.*2 = kvs'.*2 →
  get_len (Dict kvs) = get_len (Dict kvs')
  ∧ (leaf_lengths (Dict kvs) ≠ None → get_len (Dict kvs) = get_len (List (kvs.*2))).
Proof.
  intros Hv. split.
  - unfold get_len, collected_lens. simpl. by rewrite !comprehension_values, Hv.
  - intros Hl. unfold get_len. rewrite !collected_lens_leaf_lengths.
    simpl in *. rewrite each_values in *.
    by destruct (each leaf_lengths kvs.*2).
Qed.

Lemma get_len_dict_values_witness :
  get_len (Dict [("a", Array [Num 1; Num 2]); ("b", List [Scalar 3; Scalar 4])]%string)
  = get_len (Dict [("x", Array [Num 1; Num 2]); ("y", List [Scalar 3; Scalar 4])]%string)
  ∧ get_len (Dict [("a", Array [Num 1; Num 2]); ("b", List [Scalar 3; Scalar 4])]%string)
    = get_len (List [Array [Num 1; Num 2]; List [Scalar 3; Scalar 4]]).
Proof.
  split.
  - by apply (get_len_dict_values
                [("a", Array [Num 1; Num 2]); ("b", List [Scalar 3; Scalar 4])]%string
                [("x", Array [Num 1; Num 2]); ("y", List [Scalar 3; Scalar 4])]%string
                eq_refl).
  - by apply (get_len_dict_values
                [("a", Array [Num 1; Num 2]); ("b", List [Scalar 3; Scalar 4])]%string
                [("a", Array [Num 1; Num 2]); ("b", List [Scalar 3; Scalar 4])]%string
                eq_refl).
Defined.

Section ApplyProofs.
Context {A : Type} (func : data → res A).

Lemma comprehension_forget_items (l : list data) :
  Forall (λ x, _apply_to_data func true x = forget_keys <$> _apply_to_data func false x) l →
  comprehension (_apply_to_data func true) l
  = map forget_keys <$> comprehension (_apply_to_data func false) l.
Proof.
  induction 1 as [|x l Hx _ IH]; simpl; [done|].
  rewrite Hx, IH. clear Hx IH. destruct (_apply_to_data func false x); simpl; [|done].
  destruct (comprehension _ l); reflexivity.
Qed.

Lemma comprehension_forget_named (kvs : list (string * data)) :
  Forall (λ kv : string * data,
            _apply_to_data func true kv.2 = forget_keys <$> _apply_to_data func false kv.2) kvs →
  comprehension (λ kv : string * data, _apply_to_data func true kv.2) kvs
  = map (λ kt : string * applied A, forget_keys kt.2)
      <$> comprehension (λ kv : string * data, pair kv.1 <$> _apply_to_data func false kv.2) kvs.
Proof.
  induction 1 as [|kv kvs Hkv _ IH]; simpl; [done|].
  rewrite Hkv, IH. clear Hkv IH. destruct (_apply_to_data func false kv.2); simpl; [|done].
  destruct (comprehension _ kvs); reflexivity.
Qed.

(** X4.  The flag [unpack_dict] changes only the shape of what
    [_apply_to_data] returns: with it, every dict of the result is replaced
    by the list of its values; the leaves, their order and the exception
    raised, if any, are the same. *)
Theorem apply_to_data_unpack (d : data) :
  _apply_to_data func true d = forget_keys <$> _apply_to_data func false d.
Proof.
  induction d as [| z | xs | xs | f | kvs IH | xs IH | xs IH] using data_ind'; simpl;
    try (destruct (func _); reflexivity).
  - rewrite (comprehension_forget_named kvs IH). clear IH.
    destruct (comprehension _ kvs); reflexivity.
  - rewrite (comprehension_forget_items xs IH).
    destruct (comprehension (_apply_to_data func false) xs) as [ts|e]; simpl; [done|].
    destruct (decide (e = TypeError)); [|done]. destruct (func (List xs)); reflexivity.
  - rewrite (comprehension_forget_items xs IH).
    destruct (comprehension (_apply_to_data func false) xs) as [ts|e]; simpl; [done|].
    destruct (decide (e = TypeError)); [|done]. destruct (func (Tuple xs)); reflexivity.
Qed.
End ApplyProofs.

(** ** Indexing *)

Lemma slice_of_full {A} (l : list A) : slice_of None None l = l.
Proof.
  unfold slice_of. simpl. rewrite Z.sub_0_r, Nat2Z.id. simpl.
  by rewrite take_ge.
Qed.

Lemma comprehension_same_or_type_error {A} (f : A → res A) (l : list A) :
  Forall (λ x, f x = Ok x ∨ f x = Raise TypeError) l →
  comprehension f l = Ok l ∨ comprehension f l = Raise TypeError.
Proof.
  induction 1 as [|x l [Hx|Hx] _ [IH|IH]]; simpl; rewrite ?Hx, ?IH; auto.
Qed.

Lemma comprehension_same {A} (f : A → res A) (l : list A) :
  Forall (λ x, f x = Ok x) l → comprehension f l = Ok l.
Proof. induction 1 as [|x l Hx _ IH]; simpl; [done|]. by rewrite Hx, IH. Qed.

Lemma no_tuple_items_forall (xs : list data) :
  forallb no_tuple_items xs = true → Forall (λ x, no_tuple_items x = true) xs.
Proof.
  induction xs as [|x xs IH]; simpl; [constructor|].
  intros [Hx Hxs]%andb_prop. constructor; auto.
Qed.

Section FullRange.
Context `{Ecosystem}.
Hypothesis array_full : ∀ xs, array_getitem xs full_range = Ok (Array xs).
Hypothesis tensor_full : ∀ xs, tensor_getitem xs full_range = Ok (Tensor xs).
Hypothesis frame_full : ∀ f, frame_getitem f full_range = Ok (NDFrame f).
Hypothesis iloc_full : ∀ f, frame_iloc f full_range = Ok (NDFrame f).

Lemma getitem_full (v : data) :
  getitem v full_range = Ok v ∨ getitem v full_range = Raise TypeError.
Proof.
  destruct v; simpl; auto; left; by rewrite slice_of_full.
Qed.

Lemma multi_indexing_full_cases (d : data) :
  no_tuple_items d = true →
  (multi_indexing d full_range = Ok d ∨ multi_indexing d full_range = Raise TypeError)
  ∧ (match d with
     | Array _ | Tensor _ | NDFrame _ | List _ => multi_indexing d full_range = Ok d
     | _ => True
     end).
Proof.
  induction d as [| z | xs | xs | f | kvs _ | xs IH | xs _] using data_ind';
    simpl; auto; intros Hd; [| |done].
  - split; [|done].
    destruct (comprehension_same_or_type_error
                (λ kv : string * data, pair kv.1 <$> getitem kv.2 full_range) kvs)
      as [Hc|Hc].
    + apply Forall_forall. intros [k v] _. simpl.
      destruct (getitem_full v) as [Hv|Hv]; rewrite Hv; auto.
    + rewrite Hc. auto.
    + rewrite Hc. auto.
  - assert (Hlist : match comprehension (λ x, multi_indexing x full_range) xs with
                    | Ok ys => Ok (List ys)
                    | Raise e =>
                        if decide (e = TypeError) then Ok (List (slice_of None None xs))
                        else Raise e
                    end = Ok (List xs)).
    { destruct (comprehension_same_or_type_error (λ x, multi_indexing x full_range) xs)
        as [Hc|Hc].
      - apply no_tuple_items_forall in Hd.
        apply Forall_forall. intros x Hx.
        apply (proj1 (Forall_forall _ _) IH x Hx).
        by apply (proj1 (Forall_forall _ _) Hd).
      - by rewrite Hc.
      - rewrite Hc. simpl. by rewrite slice_of_full. }
    auto.
Qed.

(** X5.  When the full range selects all of an array, a tensor and a frame
    (by subscript and by [iloc]), [multi_indexing] with the full range
    returns every array, tensor and frame unchanged, and every list whose
    nested lists hold no tuple; on any other value without such a tuple
    it returns the value unchanged or raises a type error (a dict with a
    value that is a number, [None] or another dict).  A tuple does not
    come back as it was when its items are containers: a tuple whose items
    are each returned unchanged is returned as the list of these items. *)
Theorem multi_indexing_full_range (d : data) :
  (no_tuple_items d = true →
   multi_indexing d full_range = Ok d ∨ multi_indexing d full_range = Raise TypeError)
  ∧ (∀ xs, no_tuple_items (List xs) = true →
           multi_indexing (List xs) full_range = Ok (List xs))
  ∧ (∀ xs, multi_indexing (Array xs) full_range = Ok (Array xs))
  ∧ (∀ xs, multi_indexing (Tensor xs) full_range = Ok (Tensor xs))
  ∧ (∀ f, multi_indexing (NDFrame f) full_range = Ok (NDFrame f))
  ∧ (∀ xs, Forall (λ x, multi_indexing x full_range = Ok x) xs →
           multi_indexing (Tuple xs) full_range = Ok (List xs)).
Proof.
  split_and!.
  - intros Hd. by apply multi_indexing_full_cases.
  - intros xs Hxs. by apply (multi_indexing_full_cases (List xs)).
  - intros xs. by apply (multi_indexing_full_cases (Array xs)).
  - intros xs. by apply (multi_indexing_full_cases (Tensor xs)).
  - intros f. by apply (multi_indexing_full_cases (NDFrame f)).
  - intros xs Hxs. simpl.
    by rewrite (comprehension_same (λ x, multi_indexing x full_range) xs Hxs).
Qed.
End FullRange.

Lemma multi_indexing_full_range_witness :
  multi_indexing two_arrays full_range = Ok two_arrays
  ∧ multi_indexing (List [two_arrays; List [Scalar 1; List []]]) full_range
    = Ok (List [two_arrays; List [Scalar 1; List []]])
  ∧ multi_indexing (Tuple [Array [Num 1; Num 2]; Array [Num 3; Num 4]]) full_range
    = Ok (List [Array [Num 1; Num 2]; Array [Num 3; Num 4]]).
Proof.
  assert (Hnd : ∀ mk xs, ref_nd_getitem mk xs full_range = Ok (mk xs)).
  { intros mk xs. simpl. by rewrite slice_of_full. }
  assert (Hfr : ∀ f, ref_frame_iloc f full_range = Ok (NDFrame f)).
  { intros [cols rs]. simpl. by rewrite slice_of_full. }
  split_and!.
  - by apply (multi_indexing_full_range (H := Reference)
                (Hnd Array) (Hnd Tensor) Hfr Hfr two_arrays).
  - by apply (multi_indexing_full_range (H := Reference)
                (Hnd Array) (Hnd Tensor) Hfr Hfr
                (List [two_arrays; List [Scalar 1; List []]])).
  - apply (multi_indexing_full_range (H := Reference)
             (Hnd Array) (Hnd Tensor) Hfr Hfr PyNone).
    repeat constructor.
Defined.

Section IndexForms.
Context `{Ecosystem}.

(** X6.  The same positions given as a numpy array of the default
    integer type or as a Python list select the same from every container,
    whether the selection returns or raises; from a tensor they select
    what a LongTensor of these positions selects, the list being converted
    before the tensor is subscripted.  Given as an integer array of
    another width they select nothing: the call raises the index-type
    error whatever the container. *)
Theorem multi_indexing_position_forms (pos : list Z) :
  (∀ d, multi_indexing d (IIntArr pos) = multi_indexing d (IList pos))
  ∧ (∀ xs, multi_indexing (Tensor xs) (IIntArr pos) = multi_indexing (Tensor xs) (ILong pos))
  ∧ (∀ d dt, multi_indexing d (ISizedIntArr dt pos) = Raise (IndexError MsgIndexDtype)).
Proof.
  split_and!; try done.
  - intros d. by apply multi_indexing_normalized.
  - intros d dt. by apply multi_indexing_refused.
Qed.

(** X7.  On an empty list [multi_indexing] returns an empty list for
    every index that passes the normalisation, an integer included: no
    element is there to raise.  On a list of numbers that is not empty, an
    integer selects the item at that position as the subscript of the list
    does (counting from the end when negative, an index error when out of
    range), and a slice selects the sub-list. *)
Theorem multi_indexing_plain_list (zs : list Z) (i i' : index) (k : Z) (a b : option Z) :
  normalize_index i = Ok i' →
  multi_indexing (List []) i = Ok (List [])
  ∧ (zs ≠ [] →
     multi_indexing (List (Scalar <$> zs)) (IInt k) = item_at (Scalar <$> zs) k)
  ∧ multi_indexing (List (Scalar <$> zs)) (ISlice a b)
    = Ok (List (slice_of a b (Scalar <$> zs))).
Proof.
  intros Hi. split_and!.
  - simpl. by rewrite Hi.
  - intros Hne. destruct zs as [|z zs]; [done|reflexivity].
  - destruct zs as [|z zs]; [|reflexivity].
    simpl. unfold slice_of. simpl. by rewrite drop_nil, take_nil.
Qed.
End IndexForms.

Lemma multi_indexing_plain_list_witness :
  multi_indexing (List []) (IInt 5) = Ok (List [])
  ∧ multi_indexing (List [Scalar 7; Scalar 8; Scalar 9]) (IInt (-1)) = Ok (Scalar 9)
  ∧ multi_indexing (List [Scalar 7; Scalar 8; Scalar 9]) (IInt 3)
    = Raise (IndexError MsgLibrary)
  ∧ multi_indexing (List [Scalar 7; Scalar 8; Scalar 9]) (ISlice (Some 1) None)
    = Ok (List [Scalar 8; Scalar 9]).
Proof.
  split_and!.
  - apply (multi_indexing_plain_list [] (IInt 5) (IInt 5) 0 None None eq_refl).
  - apply (multi_indexing_plain_list [7; 8; 9] (IInt 0) (IInt 0) (-1) None None eq_refl).
    discriminate.
  - apply (multi_indexing_plain_list [7; 8; 9] (IInt 0) (IInt 0) 3 None None eq_refl).
    discriminate.
  - apply (multi_indexing_plain_list [7; 8; 9] (IInt 0) (IInt 0) 0 (Some 1) None eq_refl).
Defined.

(** ** CVSplit and Dataset items *)

Lemma log_of_bind {A B} (m : traced A) (f : A → traced B) :
  log_of (m ≫= f)
  = log_of m ++ match result_of m with Ok a => log_of (f a) | Raise _ => [] end.
Proof.
  destruct m as [log [a|e]]; simpl; [|by rewrite app_nil_r]. by destruct (f a).
Qed.

Lemma result_of_bind {A B} (m : traced A) (f : A → traced B) :
  result_of (m ≫= f)
  = match result_of m with Ok a => result_of (f a) | Raise e => Raise e end.
Proof. destruct m as [log [a|e]]; simpl; [|done]. by destruct (f a). Qed.





Section OneSplit.
Context `{Ecosystem}.




Lemma check_cv_iterable (pairs : list (index * index)) (y : data) :
  check_cv (mkCVSplit false (CvIterable pairs)) y = Ok (CVIterableWrapper pairs).
Proof. reflexivity. Qed.

Lemma call_iterable_result (pairs : list (index * index)) (X y : data) :
  result_of (CVSplit__call__ (mkCVSplit false (CvIterable pairs)) X y)
  = result_of
      (if _is_regular X && _is_regular y
       then regular_cv (mkCVSplit false (CvIterable pairs)) X y (CVIterableWrapper pairs)
       else special_cv (mkCVSplit false (CvIterable pairs)) X y (CVIterableWrapper pairs)).
Proof.
  unfold CVSplit__call__. by rewrite result_of_bind, check_cv_iterable.
Qed.

Lemma special_cv_result (self : CVSplit) (X y : data) (pairs : list (index * index)) :
  result_of (special_cv self X y (CVIterableWrapper pairs))
  = match Dataset__init__ X y false None with
    | Ok dataset =>
        match Dataset__len__ dataset with
        | Ok _ =>
            match pairs with
            | (idx_train, idx_valid) :: _ =>
                match Dataset__getitem__ dataset idx_train with
                | Ok (X_train, y_train) =>
                    match Dataset__getitem__ dataset idx_valid with
                    | Ok (X_valid, y_valid) => Ok (X_train, X_valid, y_train, y_valid)
                    | Raise e => Raise e
                    end
                | Raise e => Raise e
                end
            | [] => Raise StopIteration
            end
        | Raise e => Raise e
        end
    | Raise e => Raise e
    end.
Proof.
  unfold special_cv. rewrite result_of_bind. cbn [result_of quiet].
  destruct (Dataset__init__ X y false None) as [ds|]; [|done].
  rewrite result_of_bind. cbn [result_of quiet].
  destruct (Dataset__len__ ds) as [n|]; [|done].
  rewrite result_of_bind. cbn [result_of quiet _is_stratified].
  rewrite result_of_bind. destruct pairs as [|[idx_train idx_valid] pairs]; [done|].
  cbn [first_split doing split result_of mbind res_bind].
  rewrite result_of_bind. cbn [result_of doing].
  destruct (Dataset__getitem__ ds idx_train) as [[X_train y_train]|]; [|done].
  rewrite result_of_bind. cbn [result_of doing].
  by destruct (Dataset__getitem__ ds idx_valid) as [[X_valid y_valid]|].
Qed.

(** X9.  When [cv] is an iterable of index pairs and no stratification is
    asked for, only its first pair is used: the call returns (or raises)
    the same with the other pairs removed; and with no pair at all the
    call never returns. *)
Theorem CVSplit_call_first_pair (X y : data) (p : index * index)
    (others : list (index * index)) :
  result_of (CVSplit__call__ (mkCVSplit false (CvIterable (p :: others))) X y)
  = result_of (CVSplit__call__ (mkCVSplit false (CvIterable [p])) X y)
  ∧ ∀ r, result_of (CVSplit__call__ (mkCVSplit false (CvIterable [])) X y) ≠ Ok r.
Proof.
  rewrite !call_iterable_result. split.
  - destruct (_is_regular X && _is_regular y).
    + unfold regular_cv. by rewrite !result_of_bind.
    + rewrite !special_cv_result. destruct p. done.
  - intros r. destruct (_is_regular X && _is_regular y).
    + unfold regular_cv. by rewrite result_of_bind.
    + rewrite special_cv_result.
      destruct (Dataset__init__ X y false None) as [ds|]; [|done].
      by destruct (Dataset__len__ ds).
Qed.
End OneSplit.

Lemma quiet_ok_bind {A B} (a : A) (f : A → traced B) : quiet (Ok a) ≫= f = f a.
Proof. unfold quiet. simpl. by destruct (f a). Qed.

Section FallbackPath.
Context `{Ecosystem}.

Lemma head_first_split {B} (cv : splitter) (args : list data)
    (f : index * index → traced B) :
  head (log_of (first_split cv args ≫= f)) = Some (ESplit cv args).
Proof. by rewrite log_of_bind. Qed.

(** X10.  On the Dataset path the lengths are validated before anything
    is split: an error of the construction of the Dataset (a container
    that is not consistent, X and y of different lengths) is the result of
    the call, with no split drawn and nothing selected; otherwise the
    generator is asked to split [np.arange(n)], [n] the resolved length of
    X, and not X itself, together with the coerced y exactly when the
    generator is a stratified one. *)
Theorem CVSplit_call_fallback (self : CVSplit) (X y : data) (cv : splitter) :
  check_cv self y = Ok cv →
  stratified self && negb (_is_stratified cv) = false →
  _is_regular X && _is_regular y = false →
  (∀ e, Dataset__init__ X y false None = Raise e →
        CVSplit__call__ self X y = Traced [] (Raise e))
  ∧ (∀ ds, Dataset__init__ X y false None = Ok ds →
       ∃ n, get_len X = Ok n
            ∧ (_is_stratified cv = false →
               head (log_of (CVSplit__call__ self X y))
               = Some (ESplit cv [Array (Num <$> arange n)]))
            ∧ (∀ y_arr, _is_stratified cv = true → to_numpy y = Ok y_arr →
               head (log_of (CVSplit__call__ self X y))
               = Some (ESplit cv [Array (Num <$> arange n); y_arr]))).
Proof.
  intros Hcv Hguard Hirr. unfold CVSplit__call__.
  rewrite Hcv, quiet_ok_bind, Hguard, Hirr. unfold special_cv. split.
  - intros e He. by rewrite He.
  - intros ds Hds. rewrite Hds, quiet_ok_bind.
    destruct (Dataset_resolved_length X y false ds Hds) as (n & HX & Hlen & _).
    exists n. split; [done|]. rewrite Hlen, quiet_ok_bind.
    split.
    + intros Hs. by rewrite Hs, quiet_ok_bind, head_first_split.
    + intros y_arr Hs Hy. rewrite Hs, Hy. simpl (Ok y_arr ≫= _).
      by rewrite quiet_ok_bind, head_first_split.
Qed.

(** X11.  With no target, an item of a Dataset is the conversion of the
    selected input together with the conversion of a tensor of zeros whose
    length is the resolved length of the selected input: [get_len] of what
    was selected, which is not negative. *)
Theorem Dataset_getitem_placeholder (self : Dataset) (i : index) (tx ty : data) :
  ds_y self = PyNone →
  Dataset__getitem__ self i = Ok (tx, ty) →
  ∃ xi n,
    multi_indexing
      (match ds_X self with NDFrame f => Dict (column_arrays f) | X => X end) i = Ok xi
    ∧ get_len xi = Ok n ∧ 0 ≤ n
    ∧ len (torch_zeros n) = Ok n
    ∧ to_tensor xi (ds_use_cuda self) = Ok tx
    ∧ to_tensor (torch_zeros n) (ds_use_cuda self) = Ok ty.
Proof.
  intros Hy. unfold Dataset__getitem__. rewrite Hy. cbn [is_none]. intros Hr.
  apply res_bind_ok in Hr as (xi & Hxi & Hr).
  apply res_bind_ok in Hr as (yi & Hyi & Hr).
  apply res_bind_ok in Hyi as (n & Hn & Hyi). injection Hyi as <-.
  apply res_bind_ok in Hr as (tx' & Htx & Hr).
  apply res_bind_ok in Hr as (ty' & Hty & Hr). injection Hr as -> ->.
  exists xi, n. pose proof (get_len_nonneg xi n Hn) as Hnn.
  split_and!; try done.
  simpl. by rewrite length_replicate, Z2Nat.id.
Qed.

(** X12.  With no target, an integer index into a Dataset of a list of
    numbers that is not empty never yields an item: an index in range
    selects a number, and the length that the placeholder needs is asked of
    that number, which is a type error; an index out of range is an index
    error. *)
Theorem Dataset_getitem_number (zs : list Z) (use_cuda : bool) (length : option Z)
    (self : Dataset) (k : Z) :
  zs ≠ [] →
  Dataset__init__ (List (Scalar <$> zs)) PyNone use_cuda length = Ok self →
  Dataset__getitem__ self (IInt k)
  = match item_at zs k with
    | Ok _ => Raise TypeError
    | Raise e => Raise e
    end.
Proof.
  intros Hne Hself.
  assert (ds_X self = List (Scalar <$> zs) ∧ ds_y self = PyNone) as [HX Hy].
  { unfold Dataset__init__ in Hself. destruct length as [n|].
    - by injection Hself as <-.
    - apply res_bind_ok in Hself as (n & _ & Hself). simpl in Hself.
      by injection Hself as <-. }
  unfold Dataset__getitem__. rewrite HX, Hy.
  destruct zs as [|z zs]; [done|].
  change (multi_indexing (List (Scalar <$> z :: zs)) (IInt k))
    with (item_at (Scalar <$> z :: zs) k).
  unfold item_at. rewrite length_fmap, list_lookup_fmap.
  destruct (_ || _); [done|].
  by destruct ((z :: zs) !! _).
Qed.
End FallbackPath.

Lemma CVSplit_call_fallback_witness :
  CVSplit__call__ (mkCVSplit false (CvNumber (NInt 2)))
    (Dict [("a", four_samples); ("b", Array [Num 1])]%string) PyNone
  = Traced [] (Raise (ValueError MsgInconsistentLengths))
  ∧ CVSplit__call__ (mkCVSplit false (CvNumber (NInt 2))) four_named
      (Array [Num 0; Num 1])
    = Traced [] (Raise (ValueError MsgXyLengths)).
Proof.
  split.
  - by apply (CVSplit_call_fallback (mkCVSplit false (CvNumber (NInt 2)))
                (Dict [("a", four_samples); ("b", Array [Num 1])]%string) PyNone
                (KFold 2) eq_refl eq_refl eq_refl).
  - by apply (CVSplit_call_fallback (mkCVSplit false (CvNumber (NInt 2)))
                four_named (Array [Num 0; Num 1]) (KFold 2) eq_refl eq_refl eq_refl).
Defined.

Lemma Dataset_getitem_placeholder_witness :
  ∃ xi n,
    multi_indexing four_named (IList [0; 2]) = Ok xi
    ∧ get_len xi = Ok n ∧ 0 ≤ n
    ∧ len (torch_zeros n) = Ok n
    ∧ to_tensor xi false = Ok (Dict [("a", Tensor [Num 10; Num 12])]%string)
    ∧ to_tensor (torch_zeros n) false = Ok (Tensor [Num 0; Num 0]).
Proof.
  exact (Dataset_getitem_placeholder (mkDataset four_named PyNone false ∅) (IList [0; 2])
           (Dict [("a", Tensor [Num 10; Num 12])]%string) (Tensor [Num 0; Num 0])
           eq_refl eq_refl).
Defined.

Lemma Dataset_getitem_number_witness :
  ∃ self,
    Dataset__init__ (List [Scalar 7; Scalar 8; Scalar 9]) PyNone false None = Ok self
    ∧ Dataset__len__ self = Ok 3
    ∧ Dataset__getitem__ self (IInt 0) = Raise TypeError
    ∧ Dataset__getitem__ self (IInt 3) = Raise (IndexError MsgLibrary).
Proof.
  eexists. split; [reflexivity|]. split; [reflexivity|]. split.
  - apply (Dataset_getitem_number [7; 8; 9] false None _ 0); [discriminate|reflexivity].
  - apply (Dataset_getitem_number [7; 8; 9] false None _ 3); [discriminate|reflexivity].
Defined.

Section FractionProofs.
Context `{Ecosystem}.

(** X13.  When [cv] is a float that is not integral and is below 1.0,
    the resolution returns a shuffle-based generator holding out that
    fraction, whatever [y] is: a [ShuffleSplit] without stratification, a
    [StratifiedShuffleSplit] with it (provided the coercion of [y] returns
    or fails with an attribute error).  For a float that is not integral
    and is 1.0 or more the construction of the generator is refused.
    Whatever the float, a generator that the resolution returns is
    stratified exactly when stratification was asked for, so the
    stratification error is never raised for such a [cv]. *)
Theorem check_cv_fraction (self : CVSplit) (y : data) (f : float) :
  cv self = CvNumber (NFloat f) →
  float_is_integer f = false →
  (SFleb float_one f = false → stratified self = false →
   check_cv self y = Ok (ShuffleSplit (NFloat f)))
  ∧ (SFleb float_one f = false → stratified self = true →
     (∃ a, to_numpy y = Ok a) ∨ to_numpy y = Raise AttributeError →
     check_cv self y = Ok (StratifiedShuffleSplit (NFloat f)))
  ∧ (SFleb float_one f = true → stratified self = false →
     check_cv self y = Raise (ValueError MsgLibrary))
  ∧ (∀ cv', check_cv self y = Ok cv' →
            _is_stratified cv' = stratified self
            ∧ stratified self && negb (_is_stratified cv') = false).
Proof.
  intros Hcv Hf.
  assert (Hres : ∀ y_arr, resolve_with self y_arr
                 = _ ← shuffle_split_init (NFloat f);
                   Ok ((if stratified self then StratifiedShuffleSplit else ShuffleSplit)
                         (NFloat f))).
  { intros y_arr. unfold resolve_with, _is_float, _check_cv_float.
    rewrite Hcv, Hf. reflexivity. }
  assert (Hcheck : check_cv self y
                   = y_arr ← (if stratified self
                              then try_except (to_numpy y) AttributeError (Ok y)
                              else Ok PyNone);
                     resolve_with self y_arr) by reflexivity.
  split_and!.
  - intros Hone Hs. rewrite Hcheck, Hs. simpl. rewrite Hres, Hs. simpl. by rewrite Hone.
  - intros Hone Hs Hy. rewrite Hcheck, Hs.
    destruct Hy as [[a Hy]|Hy]; rewrite Hy; simpl; rewrite Hres, Hs; simpl; by rewrite Hone.
  - intros Hone Hs. rewrite Hcheck, Hs. simpl. rewrite Hres. simpl. by rewrite Hone.
  - intros cv' Hcv'. rewrite Hcheck in Hcv'.
    apply res_bind_ok in Hcv' as (y_arr & _ & Hcv'). rewrite Hres in Hcv'.
    apply res_bind_ok in Hcv' as (u & _ & Hcv').
    injection Hcv' as <-. by destruct (stratified self).
Qed.
End FractionProofs.

Lemma check_cv_fraction_witness :
  check_cv (mkCVSplit false (CvNumber (NFloat half))) four_labels
  = Ok (ShuffleSplit (NFloat half))
  ∧ check_cv (mkCVSplit true (CvNumber (NFloat half))) (List [Scalar 0; Scalar 1])
    = Ok (StratifiedShuffleSplit (NFloat half)).
Proof.
  split.
  - by apply (check_cv_fraction (mkCVSplit false (CvNumber (NFloat half)))
                four_labels half eq_refl eq_refl).
  - apply (check_cv_fraction (mkCVSplit true (CvNumber (NFloat half)))
             (List [Scalar 0; Scalar 1]) half eq_refl eq_refl); [done|done|by right].
Defined.
